(** * The daily spending allocation engine of the financial assistant

    A shallow embedding of [financial_assistant.py]: the five SQLite tables,
    [calculate_daily_limit], and the request handlers that write to the
    store ([confirm_daily_limit], [add_transaction], [savings_goals],
    [recurring_expenses], [pay_periods]).

    Modelling conventions.
    - A table is the list of its rows in insertion order.  The [created_at]
      column is never read by the functions modelled here and is left out.
    - Amounts are Python floats stored in SQLite; they are modelled as exact
      rationals ([Q]), so the binary rounding error of float arithmetic is
      not part of the model.  On every concrete input evaluated below the
      float computation returns the same value.
    - A [DATE] column holds an ISO-8601 string [YYYY-MM-DD]; SQLite compares
      such columns as text.  A date is modelled as its three fields and text
      comparison as the lexicographic order on them; [date_leb_toordinal]
      shows that on valid dates this is the order of the calendar.
    - A handler works on its own connection and commits at the end; it is
      modelled as a function from the committed store to the committed
      store.
    - [date.today()] reads the clock; the handlers take [today] as an
      argument. *)

From Stdlib Require Import ZArith QArith Qround Qabs Qminmax Lqa List String Bool Lia.
Import ListNotations.

Local Open Scope string_scope.
Local Open Scope list_scope.
Local Open Scope Z_scope.

(** ** Dates *)

Module Date.

Record date := mkdate { year : Z; month : Z; day : Z }.

Definition eqb (a b : date) : bool :=
  (year a =? year b) && (month a =? month b) && (day a =? day b).

(** [a <= b] on the ISO strings, as SQLite evaluates [col <= ?]. *)
Definition leb (a b : date) : bool :=
  if year a <? year b then true
  else if year b <? year a then false
  else if month a <? month b then true
  else if month b <? month a then false
  else day a <=? day b.

Definition is_leap (y : Z) : bool :=
  (y mod 4 =? 0) && (negb (y mod 100 =? 0) || (y mod 400 =? 0)).

Definition days_before_year (y : Z) : Z :=
  let y1 := y - 1 in y1 * 365 + y1 / 4 - y1 / 100 + y1 / 400.

Definition days_before_month (y m : Z) : Z :=
  match m with
  | 1 => 0 | 2 => 31 | 3 => 59 | 4 => 90 | 5 => 120 | 6 => 151
  | 7 => 181 | 8 => 212 | 9 => 243 | 10 => 273 | 11 => 304 | 12 => 334
  | _ => 0
  end + (if (2 <? m) && is_leap y then 1 else 0).

Definition days_in_month (y m : Z) : Z :=
  match m with
  | 2 => if is_leap y then 29 else 28
  | 4 | 6 | 9 | 11 => 30
  | _ => 31
  end.

(** The dates Python's [date] accepts, and [strptime] with [%Y-%m-%d]
    parses: on these the ISO string has four digits for the year and two
    for the month and the day. *)
Definition valid (d : date) : bool :=
  (1 <=? year d) && (year d <=? 9999)
  && (1 <=? month d) && (month d <=? 12)
  && (1 <=? day d) && (day d <=? days_in_month (year d) (month d)).

(** Python's [date.toordinal]: the proleptic Gregorian day number. *)
Definition toordinal (d : date) : Z :=
  days_before_year (year d) + days_before_month (year d) (month d) + day d.

(** [(a - b).days] *)
Definition sub_days (a b : date) : Z := toordinal a - toordinal b.

End Date.

Abbreviation date := Date.date.

(** ** The two Python built-ins the allocation uses *)

Module Py.

Local Open Scope Q_scope.

(** [max(0, x)]: the first argument is kept unless [x > 0]. *)
Definition max0 (x : Q) : Q := if Qle_bool x 0 then 0 else x.

(** Nearest integer, a tie going to the even neighbour: what [round]
    does on the exact value of its argument. *)
Definition round_half_even (x : Q) : Z :=
  let f := Qfloor x in
  match Qcompare (2 * (x - inject_Z f)) 1 with
  | Lt => f
  | Gt => (f + 1)%Z
  | Eq => if Z.even f then f else (f + 1)%Z
  end.

(** [round(x, 2)] *)
Definition round2 (x : Q) : Q := round_half_even (x * 100) # 100.

(** Nearest integer, a tie going up: [ROUND_HALF_UP] of the [decimal]
    module on a non-negative value.  The source imports that constant and
    never uses it. *)
Definition round_half_up (x : Q) : Z := Qfloor (x + (1 # 2)).

Definition round2_half_up (x : Q) : Q := round_half_up (x * 100) # 100.

End Py.

(** ** The record store *)

Record pay_period := mk_pay_period {
  pp_id : Z;
  pp_amount : Q;
  pp_start_date : date;
  pp_end_date : date
}.

Record savings_goal := mk_savings_goal {
  sg_id : Z;
  sg_name : string;
  sg_target_amount : Q;
  sg_current_amount : Q;
  sg_target_date : option date;
  sg_monthly_contribution : Q
}.

Record recurring_expense := mk_recurring_expense {
  re_id : Z;
  re_name : string;
  re_amount : Q;
  re_frequency : string;
  re_next_due : date;
  re_category : string
}.

Record transaction := mk_transaction {
  tx_id : Z;
  tx_date : date;
  tx_amount : Q;
  tx_category : string;
  tx_description : string;
  tx_type : string
}.

Record daily_budget := mk_daily_budget {
  db_id : Z;
  db_date : date;
  db_allocated_limit : Q;
  db_confirmed_limit : option Q;
  db_actual_spent : Q
}.

Record store := mk_store {
  tbl_pay_periods : list pay_period;
  tbl_savings_goals : list savings_goal;
  tbl_recurring_expenses : list recurring_expense;
  tbl_transactions : list transaction;
  tbl_daily_budgets : list daily_budget
}.

(** The store [init_db] leaves behind on first start. *)
Definition init_db : store := mk_store [] [] [] [] [].

(** [INTEGER PRIMARY KEY AUTOINCREMENT]: one more than the largest id in
    use (no handler deletes a row). *)
Definition next_id (ids : list Z) : Z := fold_left Z.max ids 0 + 1.

(** [COALESCE(SUM(col), 0)] over the selected rows. *)
Definition sql_sum (xs : list Q) : Q := fold_left Qplus xs 0%Q.

(** ** [calculate_daily_limit] *)

(** [ORDER BY start_date DESC LIMIT 1]; among rows with the same start date
    the earliest inserted one is taken. *)
Fixpoint latest_start (ps : list pay_period) : option pay_period :=
  match ps with
  | [] => None
  | p :: rest =>
      match latest_start rest with
      | None => Some p
      | Some q =>
          if Date.leb (pp_start_date q) (pp_start_date p) then Some p else Some q
      end
  end.

Definition covers (today : date) (p : pay_period) : bool :=
  Date.leb (pp_start_date p) today && Date.leb today (pp_end_date p).

Definition current_period (st : store) (today : date) : option pay_period :=
  latest_start (filter (covers today) (tbl_pay_periods st)).

Definition is_expense (t : transaction) : bool := String.eqb (tx_type t) "expense".

Definition spent_between (lo hi : date) (t : transaction) : bool :=
  Date.leb lo (tx_date t) && Date.leb (tx_date t) hi && is_expense t.

Definition due_between (lo hi : date) (r : recurring_expense) : bool :=
  Date.leb lo (re_next_due r) && Date.leb (re_next_due r) hi.

Definition total_spent (st : store) (period_start today : date) : Q :=
  sql_sum (map tx_amount (filter (spent_between period_start today) (tbl_transactions st))).

Definition upcoming_bills (st : store) (today period_end : date) : Q :=
  sql_sum (map re_amount (filter (due_between today period_end) (tbl_recurring_expenses st))).

Definition planned_savings (st : store) : Q :=
  sql_sum (map sg_monthly_contribution (tbl_savings_goals st)).

Definition calculate_daily_limit (st : store) (today : date) : Q :=
  match current_period st today with
  | None => 0%Q
  | Some current_period =>
      let period_start := pp_start_date current_period in
      let period_end := pp_end_date current_period in
      let days_remaining := Date.sub_days period_end today + 1 in
      let remaining_income :=
        (pp_amount current_period - total_spent st period_start today)%Q in
      let available_for_spending :=
        (remaining_income - upcoming_bills st today period_end - planned_savings st)%Q in
      let daily_limit :=
        if days_remaining <=? 0 then 0%Q
        else Py.max0 (available_for_spending / inject_Z days_remaining) in
      Py.round2 daily_limit
  end.

(** ** Request handlers *)

Definition with_pay_periods (st : store) (ps : list pay_period) : store :=
  mk_store ps (tbl_savings_goals st) (tbl_recurring_expenses st)
           (tbl_transactions st) (tbl_daily_budgets st).

Definition with_savings_goals (st : store) (gs : list savings_goal) : store :=
  mk_store (tbl_pay_periods st) gs (tbl_recurring_expenses st)
           (tbl_transactions st) (tbl_daily_budgets st).

Definition with_recurring_expenses (st : store) (rs : list recurring_expense) : store :=
  mk_store (tbl_pay_periods st) (tbl_savings_goals st) rs
           (tbl_transactions st) (tbl_daily_budgets st).

Definition with_transactions (st : store) (ts : list transaction) : store :=
  mk_store (tbl_pay_periods st) (tbl_savings_goals st) (tbl_recurring_expenses st)
           ts (tbl_daily_budgets st).

Definition with_daily_budgets (st : store) (bs : list daily_budget) : store :=
  mk_store (tbl_pay_periods st) (tbl_savings_goals st) (tbl_recurring_expenses st)
           (tbl_transactions st) bs.

(** The values the page's script can put under a key of the request body:
    [JSON.stringify({limit: parseFloat(confirmed)})] renders a number, or
    [null] when the prompt's text is not a number. *)
Inductive json :=
| JNull
| JNum (q : Q).

Definition json_object := list (string * json).

Fixpoint dict_get (key : string) (d : json_object) : option json :=
  match d with
  | [] => None
  | (k, v) :: rest => if String.eqb k key then Some v else dict_get key rest
  end.

(** [d.get(key, default)] once the key has been looked up. *)
Definition get_or {A : Type} (found : option A) (default : A) : A :=
  match found with
  | Some v => v
  | None => default
  end.

(** What a handler leaves behind: the committed store, or the exception
    sqlite3 raises on a [NOT NULL] column (the request then commits
    nothing). *)
Inductive result (A : Type) :=
| Ok (a : A)
| IntegrityError.

Arguments Ok {A} a.
Arguments IntegrityError {A}.

(** [SELECT id FROM daily_budgets WHERE date = ?] finds a row. *)
Definition budget_exists (d : date) (bs : list daily_budget) : bool :=
  existsb (fun b => Date.eqb (db_date b) d) bs.

(** [UPDATE daily_budgets SET confirmed_limit = ? WHERE date = ?], row by row. *)
Definition set_confirmed_limit (d : date) (v : option Q) (b : daily_budget) : daily_budget :=
  if Date.eqb (db_date b) d
  then mk_daily_budget (db_id b) (db_date b) (db_allocated_limit b) v (db_actual_spent b)
  else b.

Definition confirm_daily_limit (st : store) (today : date) (data : json_object)
  : result store :=
  let limit := get_or (dict_get "limit" data) (JNum 0) in
  let budgets := tbl_daily_budgets st in
  if budget_exists today budgets then
    let v := match limit with JNum q => Some q | JNull => None end in
    Ok (with_daily_budgets st (map (set_confirmed_limit today v) budgets))
  else
    match limit with
    | JNum q =>
        Ok (with_daily_budgets st
              (budgets ++ [mk_daily_budget (next_id (map db_id budgets)) today q (Some q) 0]))
    | JNull => IntegrityError
    end.

(** The fields of the add-transaction form.  [form_date] and [form_type] are
    read with a default; [form_goal_id] is [None] when the field is absent or
    empty (both are falsy), and an id that is not a number is like an id no
    goal has. *)
Record transaction_form := mk_transaction_form {
  form_amount : Q;
  form_category : string;
  form_description : string;
  form_date : option date;
  form_type : option string;
  form_goal_id : option Z
}.

Definition spent_on (d : date) (t : transaction) : bool :=
  Date.eqb (tx_date t) d && is_expense t.

(** [SELECT COALESCE(SUM(amount), 0) FROM transactions WHERE date = ? AND
    transaction_type = "expense"] *)
Definition expenses_on (ts : list transaction) (d : date) : Q :=
  sql_sum (map tx_amount (filter (spent_on d) ts)).

(** [UPDATE daily_budgets SET actual_spent = (...) WHERE date = ?], row by row. *)
Definition set_actual_spent (d : date) (v : Q) (b : daily_budget) : daily_budget :=
  if Date.eqb (db_date b) d
  then mk_daily_budget (db_id b) (db_date b) (db_allocated_limit b) (db_confirmed_limit b) v
  else b.

(** [UPDATE savings_goals SET current_amount = current_amount + ? WHERE id = ?] *)
Definition add_to_goal (goal_id : Z) (amount : Q) (g : savings_goal) : savings_goal :=
  if sg_id g =? goal_id
  then mk_savings_goal (sg_id g) (sg_name g) (sg_target_amount g)
         (sg_current_amount g + amount)%Q (sg_target_date g) (sg_monthly_contribution g)
  else g.

(** The POST branch.  [conn] is the handler's connection, whose writes are
    committed together at the end.  [calculate_daily_limit] opens a
    connection of its own, so it reads the committed store [st], which does
    not hold the transaction row inserted a few lines above. *)
Definition add_transaction (st : store) (today : date) (form : transaction_form) : store :=
  let amount := form_amount form in
  let category := form_category form in
  let description := form_description form in
  let transaction_date := get_or (form_date form) today in
  let transaction_type := get_or (form_type form) "expense" in
  let conn :=
    with_transactions st
      (tbl_transactions st ++
       [mk_transaction (next_id (map tx_id (tbl_transactions st)))
          transaction_date amount category description transaction_type]) in
  let conn :=
    if String.eqb transaction_type "expense" && Date.eqb transaction_date today then
      let conn :=
        if budget_exists transaction_date (tbl_daily_budgets conn) then conn
        else
          let suggested_limit := calculate_daily_limit st today in
          with_daily_budgets conn
            (tbl_daily_budgets conn ++
             [mk_daily_budget (next_id (map db_id (tbl_daily_budgets conn)))
                transaction_date suggested_limit None 0])
      in
      with_daily_budgets conn
        (map (set_actual_spent transaction_date
                (expenses_on (tbl_transactions conn) transaction_date))
             (tbl_daily_budgets conn))
    else conn in
  let conn :=
    if String.eqb transaction_type "savings_contribution" then
      match form_goal_id form with
      | Some goal_id =>
          with_savings_goals conn (map (add_to_goal goal_id amount) (tbl_savings_goals conn))
      | None => conn
      end
    else conn in
  conn.

(** The POST branches of the three remaining forms: one [INSERT] each. *)
Definition savings_goals (st : store) (name : string) (target_amount : Q)
    (target_date : option date) (monthly_contribution : Q) : store :=
  with_savings_goals st
    (tbl_savings_goals st ++
     [mk_savings_goal (next_id (map sg_id (tbl_savings_goals st)))
        name target_amount 0 target_date monthly_contribution]).

Definition recurring_expenses (st : store) (name : string) (amount : Q)
    (frequency : string) (next_due : date) (category : string) : store :=
  with_recurring_expenses st
    (tbl_recurring_expenses st ++
     [mk_recurring_expense (next_id (map re_id (tbl_recurring_expenses st)))
        name amount frequency next_due category]).

Definition pay_periods (st : store) (amount : Q) (start_date end_date : date) : store :=
  with_pay_periods st
    (tbl_pay_periods st ++
     [mk_pay_period (next_id (map pp_id (tbl_pay_periods st))) amount start_date end_date]).

(** ** Histories of requests *)

Inductive request :=
| PostConfirmDailyLimit (data : json_object)
| PostAddTransaction (form : transaction_form)
| PostSavingsGoals (name : string) (target_amount : Q) (target_date : option date)
    (monthly_contribution : Q)
| PostRecurringExpenses (name : string) (amount : Q) (frequency : string)
    (next_due : date) (category : string)
| PostPayPeriods (amount : Q) (start_date end_date : date).

(** One request served on the day [today]; a request that raises commits
    nothing. *)
Definition serve (st : store) (today : date) (r : request) : store :=
  match r with
  | PostConfirmDailyLimit data =>
      match confirm_daily_limit st today data with
      | Ok st' => st'
      | IntegrityError => st
      end
  | PostAddTransaction form => add_transaction st today form
  | PostSavingsGoals n t d m => savings_goals st n t d m
  | PostRecurringExpenses n a f d c => recurring_expenses st n a f d c
  | PostPayPeriods a s e => pay_periods st a s e
  end.

Fixpoint run (st : store) (history : list (date * request)) : store :=
  match history with
  | [] => st
  | (today, r) :: rest => run (serve st today r) rest
  end.

(** ** Specification predicates *)

(** Two recurring expenses that agree on every column but [frequency]. *)
Definition same_but_frequency (r r' : recurring_expense) : Prop :=
  re_id r = re_id r' /\ re_name r = re_name r' /\ re_amount r = re_amount r'
  /\ re_next_due r = re_next_due r' /\ re_category r = re_category r'.

(** Two stores that differ at most in the [frequency] of their recurring
    expenses. *)
Definition differ_only_in_frequency (st st' : store) : Prop :=
  tbl_pay_periods st = tbl_pay_periods st'
  /\ tbl_savings_goals st = tbl_savings_goals st'
  /\ tbl_transactions st = tbl_transactions st'
  /\ tbl_daily_budgets st = tbl_daily_budgets st'
  /\ Forall2 same_but_frequency (tbl_recurring_expenses st) (tbl_recurring_expenses st').

(** Each row due in the window contributes its amount once. *)
Definition once_each (lo hi : date) (rs : list recurring_expense) : Q :=
  fold_right (fun r acc => ((if due_between lo hi r then re_amount r else 0) + acc)%Q) 0%Q rs.

(** What a confirmation may change in a [DailyBudget] row: nothing unless
    the row is the one of [today], and then only [confirmed_limit]. *)
Definition only_confirmed_changed (today : date) (b b' : daily_budget) : Prop :=
  db_id b' = db_id b /\ db_date b' = db_date b
  /\ db_allocated_limit b' = db_allocated_limit b
  /\ db_actual_spent b' = db_actual_spent b
  /\ (db_date b <> today -> b' = b).

(** The store [st'] a confirmation of [amount] on [today] leaves, given the
    store [st] it started from. *)
Definition confirm_post (today : date) (amount : Q) (st st' : store) : Prop :=
  tbl_pay_periods st' = tbl_pay_periods st
  /\ tbl_savings_goals st' = tbl_savings_goals st
  /\ tbl_recurring_expenses st' = tbl_recurring_expenses st
  /\ tbl_transactions st' = tbl_transactions st
  /\ budget_exists today (tbl_daily_budgets st') = true
  /\ (forall b, In b (tbl_daily_budgets st') -> db_date b = today ->
      db_confirmed_limit b = Some amount)
  /\ (budget_exists today (tbl_daily_budgets st) = true ->
      Forall2 (only_confirmed_changed today) (tbl_daily_budgets st) (tbl_daily_budgets st'))
  /\ (budget_exists today (tbl_daily_budgets st) = false ->
      tbl_daily_budgets st' =
      tbl_daily_budgets st ++
      [mk_daily_budget (next_id (map db_id (tbl_daily_budgets st)))
         today amount (Some amount) 0]).

(** The row [add_transaction] appends to the log. *)
Definition inserted_transaction (st : store) (today : date) (form : transaction_form)
  : transaction :=
  mk_transaction (next_id (map tx_id (tbl_transactions st)))
    (get_or (form_date form) today) (form_amount form) (form_category form)
    (form_description form) (get_or (form_type form) "expense").

(** What recording an expense may change in a [DailyBudget] row: nothing
    unless the row is the one of [today], and then only [actual_spent]. *)
Definition only_actual_spent_changed (today : date) (b b' : daily_budget) : Prop :=
  db_id b' = db_id b /\ db_date b' = db_date b
  /\ db_allocated_limit b' = db_allocated_limit b
  /\ db_confirmed_limit b' = db_confirmed_limit b
  /\ (db_date b <> today -> b' = b).

(** What a contribution of [amount] to the goal [goal_id] does to a row of
    [savings_goals]. *)
Definition contributed (goal_id : Z) (amount : Q) (g g' : savings_goal) : Prop :=
  if sg_id g =? goal_id
  then g' = mk_savings_goal (sg_id g) (sg_name g) (sg_target_amount g)
              (sg_current_amount g + amount)%Q (sg_target_date g)
              (sg_monthly_contribution g)
  else g' = g.

(** The claim that a negative limit is refused. *)
Definition rejects_negative_limits : Prop :=
  forall (st : store) (today : date) (data : json_object) (amount : Q),
    dict_get "limit" data = Some (JNum amount) -> (amount < 0)%Q ->
    forall st', confirm_daily_limit st today data <> Ok st'.

(** Every [DailyBudget] row carries the sum of the expenses of its date. *)
Definition budget_inv (st : store) : Prop :=
  forall b, In b (tbl_daily_budgets st) ->
    db_actual_spent b = expenses_on (tbl_transactions st) (db_date b).

(** Every expense of the log is dated on a day that has a [DailyBudget]. *)
Definition every_expense_has_budget (st : store) : Prop :=
  forall t, In t (tbl_transactions st) -> is_expense t = true ->
    budget_exists (tx_date t) (tbl_daily_budgets st) = true.

(** The request does not record an expense under a date other than the day
    it is served on. *)
Definition expense_on_the_day (today : date) (r : request) : bool :=
  match r with
  | PostAddTransaction form =>
      negb (String.eqb (get_or (form_type form) "expense") "expense")
      || Date.eqb (get_or (form_date form) today) today
  | _ => true
  end.

Definition expenses_on_the_day (history : list (date * request)) : bool :=
  forallb (fun dr => expense_on_the_day (fst dr) (snd dr)) history.

(** ** Concrete stores *)

Definition ymd (y m d : Z) : date := Date.mkdate y m d.

Definition june_period : pay_period :=
  mk_pay_period 1 2000 (ymd 2024 6 1) (ymd 2024 6 15).

(** The spec's worked example: 300.00 spent since the period began (an
    expense of May and a savings contribution do not count), one bill of
    150.00 due before the period ends (one due after it does not count),
    and 200.00 of planned savings over two goals. *)
Definition june_store : store :=
  mk_store
    [june_period]
    [mk_savings_goal 1 "car" 5000 0 None 125;
     mk_savings_goal 2 "trip" 900 100 (Some (ymd 2025 1 1)) 75]
    [mk_recurring_expense 1 "power" 150 "monthly" (ymd 2024 6 10) "home";
     mk_recurring_expense 2 "gym" 40 "weekly" (ymd 2024 6 20) "sport"]
    [mk_transaction 1 (ymd 2024 5 30) 70 "food" "market" "expense";
     mk_transaction 2 (ymd 2024 6 2) 120 "food" "market" "expense";
     mk_transaction 3 (ymd 2024 6 4) 180 "fuel" "station" "expense";
     mk_transaction 4 (ymd 2024 6 4) 55 "goal" "car" "savings_contribution"]
    [].

(** A period of 1000.25 with two days left: the quotient is 500.125, a
    value binary floating point holds exactly. *)
Definition half_cent_store : store :=
  mk_store [mk_pay_period 1 (100025 # 100) (ymd 2024 6 1) (ymd 2024 6 15)] [] [] [] [].

Definition with_frequency (f : string) (r : recurring_expense) : recurring_expense :=
  mk_recurring_expense (re_id r) (re_name r) (re_amount r) f (re_next_due r) (re_category r).

Definition june_store_yearly : store :=
  with_recurring_expenses june_store
    (map (with_frequency "yearly") (tbl_recurring_expenses june_store)).

(** A limit confirmed on June 4th, and an expense of that day entered on
    June 5th. *)
Definition late_entry_history : list (date * request) :=
  [(ymd 2024 6 4, PostConfirmDailyLimit [("limit", JNum 50)]);
   (ymd 2024 6 5,
    PostAddTransaction
      (mk_transaction_form 10 "food" "dinner" (Some (ymd 2024 6 4)) (Some "expense") None))].

(** Two days of same-day expenses, with a contribution entered under an
    earlier date in between. *)
Definition same_day_history : list (date * request) :=
  [(ymd 2024 6 1, PostPayPeriods 2000 (ymd 2024 6 1) (ymd 2024 6 15));
   (ymd 2024 6 1, PostSavingsGoals "car" 5000 None 125);
   (ymd 2024 6 4, PostConfirmDailyLimit [("limit", JNum 50)]);
   (ymd 2024 6 4, PostAddTransaction (mk_transaction_form 12 "food" "lunch" None None None));
   (ymd 2024 6 5,
    PostAddTransaction
      (mk_transaction_form 60 "goal" "car" (Some (ymd 2024 6 4))
         (Some "savings_contribution") (Some 1)));
   (ymd 2024 6 5,
    PostAddTransaction
      (mk_transaction_form 8 "food" "coffee" (Some (ymd 2024 6 5)) (Some "expense") None));
   (ymd 2024 6 5, PostConfirmDailyLimit [("limit", JNull)])].

(** ** The dashboard *)

(** [confirmed_limit or allocated_limit]: the confirmed limit unless it is
    null or zero (both falsy). *)
Definition limit_or (confirmed : option Q) (allocated : Q) : Q :=
  match confirmed with
  | Some q => if Qeq_bool q 0 then allocated else q
  | None => allocated
  end.

(** [min(100, x)]: the first argument is kept unless [x < 100]. *)
Definition min100 (x : Q) : Q := if Qle_bool 100 x then 100 else x.

(** The row of today with the two entries the handler adds to it. *)
Record budget_view := mk_budget_view {
  bv_budget : daily_budget;
  bv_spent_percentage : Q;
  bv_remaining : Q
}.

(** The values handed to the template.  The two lists (savings goals and
    recent transactions) are ordered by [created_at], a column the model
    leaves out, and are not part of the view. *)
Record dashboard_view := mk_dashboard_view {
  dv_daily_budget : option budget_view;
  dv_current_period : option pay_period;
  dv_days_remaining : Z;
  dv_suggested_limit : Q
}.

(** What the dashboard request ends in: the page, or the exception of a
    division by a zero limit. *)
Inductive rendered :=
| Page (v : dashboard_view)
| ZeroDivisionError.

(** [SELECT * FROM daily_budgets WHERE date = ?], [fetchone()]. *)
Definition find_budget (d : date) (bs : list daily_budget) : option daily_budget :=
  find (fun b => Date.eqb (db_date b) d) bs.

Definition dashboard (st : store) (today : date) : rendered :=
  let daily_budget := find_budget today (tbl_daily_budgets st) in
  let current_period := current_period st today in
  let days_remaining :=
    match current_period with
    | Some p => Date.sub_days (pp_end_date p) today + 1
    | None => 0
    end in
  match daily_budget with
  | Some b =>
      let limit := limit_or (db_confirmed_limit b) (db_allocated_limit b) in
      if Qeq_bool limit 0 then ZeroDivisionError
      else
        let spent_percentage := min100 (db_actual_spent b / limit * 100)%Q in
        let remaining := (limit - db_actual_spent b)%Q in
        Page (mk_dashboard_view (Some (mk_budget_view b spent_percentage remaining))
                current_period days_remaining 0)
  | None =>
      Page (mk_dashboard_view None current_period days_remaining
              (calculate_daily_limit st today))
  end.

(** The progress of a goal as both goal lists print it:
    [(current_amount / target_amount * 100) if target_amount > 0 else 0]. *)
Definition goal_progress (g : savings_goal) : Q :=
  if Qle_bool (sg_target_amount g) 0 then 0%Q
  else (sg_current_amount g / sg_target_amount g * 100)%Q.

(** * Properties *)

(** ** Dates *)

Lemma date_eqb_eq (a b : date) : Date.eqb a b = true <-> a = b.
Proof.
  unfold Date.eqb; destruct a as [y m d], b as [y' m' d']; simpl.
  rewrite !andb_true_iff, !Z.eqb_eq.
  split; [intros [[-> ->] ->]; reflexivity | intros H; inversion H; auto].
Qed.

Lemma date_eqb_refl (a : date) : Date.eqb a a = true.
Proof. apply date_eqb_eq; reflexivity. Qed.

Lemma date_eqb_neq (a b : date) : Date.eqb a b = false <-> a <> b.
Proof.
  rewrite <- date_eqb_eq; destruct (Date.eqb a b); split; congruence.
Qed.

Lemma date_eqb_sym (a b : date) : Date.eqb a b = Date.eqb b a.
Proof.
  destruct (Date.eqb b a) eqn:E.
  - apply date_eqb_eq in E; subst; apply date_eqb_refl.
  - apply date_eqb_neq in E; apply date_eqb_neq; congruence.
Qed.

(** On valid dates the order of the ISO strings is the order of the day
    numbers, so the comparisons SQLite makes and the subtraction Python
    makes agree. *)

Lemma year_length (y : Z) :
  Date.days_before_year (y + 1)
  = Date.days_before_year y + 365 + (if Date.is_leap y then 1 else 0).
Proof.
  unfold Date.days_before_year, Date.is_leap.
  replace (y + 1 - 1) with y by lia.
  destruct (Z.eqb_spec (y mod 4) 0), (Z.eqb_spec (y mod 100) 0),
    (Z.eqb_spec (y mod 400) 0);
    simpl; Z.to_euclidean_division_equations; lia.
Qed.

Lemma days_before_year_mono (y y' : Z) :
  y <= y' -> Date.days_before_year y <= Date.days_before_year y'.
Proof.
  unfold Date.days_before_year; intros; Z.to_euclidean_division_equations; lia.
Qed.

Lemma month_cases (m : Z) :
  1 <= m <= 12 ->
  m = 1 \/ m = 2 \/ m = 3 \/ m = 4 \/ m = 5 \/ m = 6
  \/ m = 7 \/ m = 8 \/ m = 9 \/ m = 10 \/ m = 11 \/ m = 12.
Proof. lia. Qed.

Ltac each_month m H :=
  destruct (month_cases m H)
    as [-> | [-> | [-> | [-> | [-> | [-> | [-> | [-> | [-> | [-> | [-> | ->]]]]]]]]]]].

Lemma valid_fields (d : date) :
  Date.valid d = true ->
  1 <= Date.year d <= 9999 /\ 1 <= Date.month d <= 12
  /\ 1 <= Date.day d <= Date.days_in_month (Date.year d) (Date.month d).
Proof.
  unfold Date.valid; rewrite !andb_true_iff, !Z.leb_le; lia.
Qed.

Lemma toordinal_within_year (d : date) :
  Date.valid d = true ->
  Date.days_before_year (Date.year d) < Date.toordinal d
  <= Date.days_before_year (Date.year d) + 365
     + (if Date.is_leap (Date.year d) then 1 else 0).
Proof.
  intros H; apply valid_fields in H; destruct H as (_ & Hm & Hd).
  unfold Date.toordinal; destruct d as [y m dd]; simpl in *.
  each_month m Hm;
    unfold Date.days_before_month, Date.days_in_month in *; simpl in *;
    destruct (Date.is_leap y); simpl in *; lia.
Qed.

Lemma month_order (y m m' : Z) :
  1 <= m -> m < m' -> m' <= 12 ->
  Date.days_before_month y m + Date.days_in_month y m <= Date.days_before_month y m'.
Proof.
  intros H1 H2 H3.
  assert (1 <= m <= 12) as Hm by lia.
  assert (1 <= m' <= 12) as Hm' by lia.
  each_month m Hm; each_month m' Hm'; try lia;
    unfold Date.days_before_month, Date.days_in_month; simpl;
    destruct (Date.is_leap y); simpl; lia.
Qed.

Lemma date_leb_toordinal (a b : date) :
  Date.valid a = true -> Date.valid b = true ->
  Date.leb a b = (Date.toordinal a <=? Date.toordinal b).
Proof.
  intros Ha Hb.
  pose proof (toordinal_within_year a Ha) as Wa.
  pose proof (toordinal_within_year b Hb) as Wb.
  apply valid_fields in Ha, Hb.
  unfold Date.leb.
  destruct (Z.ltb_spec (Date.year a) (Date.year b)) as [Hy | Hy].
  { symmetry; apply Z.leb_le.
    assert (Date.year a + 1 <= Date.year b) as Hs by lia.
    apply days_before_year_mono in Hs; rewrite year_length in Hs; lia. }
  destruct (Z.ltb_spec (Date.year b) (Date.year a)) as [Hy' | Hy'].
  { symmetry; apply Z.leb_gt.
    assert (Date.year b + 1 <= Date.year a) as Hs by lia.
    apply days_before_year_mono in Hs; rewrite year_length in Hs; lia. }
  assert (Date.year a = Date.year b) as Ey by lia.
  unfold Date.toordinal; rewrite Ey in *.
  destruct (Z.ltb_spec (Date.month a) (Date.month b)) as [Hm | Hm].
  { symmetry; apply Z.leb_le.
    assert (Date.days_before_month (Date.year b) (Date.month a)
            + Date.days_in_month (Date.year b) (Date.month a)
            <= Date.days_before_month (Date.year b) (Date.month b))
      by (apply month_order; lia).
    lia. }
  destruct (Z.ltb_spec (Date.month b) (Date.month a)) as [Hm' | Hm'].
  { symmetry; apply Z.leb_gt.
    assert (Date.days_before_month (Date.year b) (Date.month b)
            + Date.days_in_month (Date.year b) (Date.month b)
            <= Date.days_before_month (Date.year b) (Date.month a))
      by (apply month_order; lia).
    lia. }
  assert (Date.month a = Date.month b) as Em by lia; rewrite Em.
  destruct (Z.leb_spec (Date.day a) (Date.day b));
    symmetry; [apply Z.leb_le | apply Z.leb_gt]; lia.
Qed.

Lemma date_leb_total (a b : date) : Date.leb a b = false -> Date.leb b a = true.
Proof.
  unfold Date.leb.
  destruct (Z.ltb_spec (Date.year a) (Date.year b)),
    (Z.ltb_spec (Date.year b) (Date.year a)),
    (Z.ltb_spec (Date.month a) (Date.month b)),
    (Z.ltb_spec (Date.month b) (Date.month a));
    try discriminate; try reflexivity; lia.
Qed.

Lemma date_leb_refl (a : date) : Date.leb a a = true.
Proof.
  destruct (Date.leb a a) eqn:E; [reflexivity |].
  rewrite (date_leb_total a a E) in E; discriminate.
Qed.

Lemma date_leb_trans (a b c : date) :
  Date.leb a b = true -> Date.leb b c = true -> Date.leb a c = true.
Proof.
  unfold Date.leb.
  destruct (Z.ltb_spec (Date.year a) (Date.year b)),
    (Z.ltb_spec (Date.year b) (Date.year a)),
    (Z.ltb_spec (Date.month a) (Date.month b)),
    (Z.ltb_spec (Date.month b) (Date.month a)),
    (Z.ltb_spec (Date.year b) (Date.year c)),
    (Z.ltb_spec (Date.year c) (Date.year b)),
    (Z.ltb_spec (Date.month b) (Date.month c)),
    (Z.ltb_spec (Date.month c) (Date.month b)),
    (Z.ltb_spec (Date.year a) (Date.year c)),
    (Z.ltb_spec (Date.year c) (Date.year a)),
    (Z.ltb_spec (Date.month a) (Date.month c)),
    (Z.ltb_spec (Date.month c) (Date.month a));
    try discriminate; try reflexivity; try lia;
    rewrite ?Z.leb_le; intros; lia.
Qed.

(** ** Rounding and [max] *)

Section Rounding.

Local Open Scope Q_scope.

Lemma max0_nonneg (x : Q) : 0 <= Py.max0 x.
Proof.
  unfold Py.max0; destruct (Qle_bool x 0) eqn:E.
  - apply Qle_refl.
  - apply Qnot_lt_le; intro H.
    assert (Qle_bool x 0 = true) by (apply Qle_bool_iff, Qlt_le_weak, H).
    congruence.
Qed.

Lemma max0_is_Qmax (x : Q) : Py.max0 x == Qmax 0 x.
Proof.
  unfold Py.max0; destruct (Qle_bool x 0) eqn:E.
  - apply Qle_bool_iff in E. symmetry; apply Q.max_l; exact E.
  - symmetry; apply Q.max_r.
    apply Qnot_lt_le; intro H.
    assert (Qle_bool x 0 = true) by (apply Qle_bool_iff, Qlt_le_weak, H).
    congruence.
Qed.

Lemma round_half_even_cases (x : Q) :
  Py.round_half_even x = Qfloor x \/ Py.round_half_even x = (Qfloor x + 1)%Z.
Proof.
  unfold Py.round_half_even.
  destruct (Qcompare _ _); [destruct (Z.even _) | |]; auto.
Qed.

Lemma round_half_even_near (x : Q) :
  Qabs (inject_Z (Py.round_half_even x) - x) <= 1 # 2.
Proof.
  pose proof (Qfloor_le x) as Hlo.
  pose proof (Qlt_floor x) as Hhi.
  rewrite inject_Z_plus in Hhi; change (inject_Z 1) with 1 in Hhi.
  apply Qabs_Qle_condition.
  unfold Py.round_half_even.
  destruct (Qcompare (2 * (x - inject_Z (Qfloor x))) 1) eqn:E.
  - apply Qeq_alt in E.
    destruct (Z.even (Qfloor x));
      [| rewrite inject_Z_plus; change (inject_Z 1) with 1]; split; lra.
  - apply Qlt_alt in E. split; lra.
  - apply Qgt_alt in E.
    rewrite inject_Z_plus; change (inject_Z 1) with 1. split; lra.
Qed.

Lemma round_half_even_nonneg (x : Q) : 0 <= x -> (0 <= Py.round_half_even x)%Z.
Proof.
  intros Hx.
  assert (0 <= Qfloor x)%Z as Hf.
  { change 0%Z with (Qfloor 0). apply Qfloor_resp_le, Hx. }
  destruct (round_half_even_cases x) as [-> | ->]; lia.
Qed.

Lemma cents_as_quotient (n : Z) : n # 100 == inject_Z n / 100.
Proof. change 100 with (inject_Z 100); rewrite Qmake_Qdiv; reflexivity. Qed.

Lemma round2_near (x : Q) : Qabs (Py.round2 x - x) <= 1 # 200.
Proof.
  unfold Py.round2.
  pose proof (round_half_even_near (x * 100)) as H.
  apply Qabs_Qle_condition in H.
  apply Qabs_Qle_condition.
  rewrite cents_as_quotient.
  set (n := inject_Z (Py.round_half_even (x * 100))) in *.
  split.
  - setoid_replace (n / 100 - x) with ((n - x * 100) / 100) by field.
    apply Qle_shift_div_l; [reflexivity | lra].
  - setoid_replace (n / 100 - x) with ((n - x * 100) / 100) by field.
    apply Qle_shift_div_r; [reflexivity | lra].
Qed.

Lemma round2_nonneg (x : Q) : 0 <= x -> 0 <= Py.round2 x.
Proof.
  intros Hx. unfold Py.round2, Qle; simpl.
  assert (0 <= Py.round_half_even (x * 100))%Z.
  { apply round_half_even_nonneg. apply Qmult_le_0_compat; [exact Hx | discriminate]. }
  lia.
Qed.

End Rounding.

(** ** Selecting the current pay period *)

Lemma latest_start_none (ps : list pay_period) : latest_start ps = None -> ps = [].
Proof.
  destruct ps as [| p rest]; [reflexivity |]; simpl.
  destruct (latest_start rest); [destruct (Date.leb _ _) |]; discriminate.
Qed.

Lemma latest_start_in (ps : list pay_period) (p : pay_period) :
  latest_start ps = Some p -> In p ps.
Proof.
  revert p; induction ps as [| a rest IH]; simpl; intros p H; [discriminate |].
  destruct (latest_start rest) as [q |].
  - destruct (Date.leb (pp_start_date q) (pp_start_date a));
      inversion H; subst; auto.
  - inversion H; auto.
Qed.

Lemma current_period_covers (st : store) (today : date) (p : pay_period) :
  current_period st today = Some p ->
  In p (tbl_pay_periods st) /\ covers today p = true.
Proof.
  unfold current_period; intros H.
  apply latest_start_in, filter_In in H; exact H.
Qed.

Lemma no_period_no_current (st : store) (today : date) :
  (forall p, In p (tbl_pay_periods st) -> covers today p = false) ->
  current_period st today = None.
Proof.
  intros H; unfold current_period.
  destruct (latest_start _) as [p |] eqn:E; [| reflexivity].
  apply latest_start_in, filter_In in E; destruct E as [Hin Hc].
  rewrite (H p Hin) in Hc; discriminate.
Qed.

Lemma latest_start_max (ps : list pay_period) (p : pay_period) :
  latest_start ps = Some p ->
  forall q, In q ps -> Date.leb (pp_start_date q) (pp_start_date p) = true.
Proof.
  revert p; induction ps as [| a rest IH]; simpl; intros p H q Hq; [contradiction |].
  destruct (latest_start rest) as [r |] eqn:Er.
  - destruct (Date.leb (pp_start_date r) (pp_start_date a)) eqn:El;
      inversion H; subst; destruct Hq as [<- | Hq].
    + apply date_leb_refl.
    + apply (date_leb_trans _ (pp_start_date r)); [apply (IH r eq_refl q Hq) | exact El].
    + apply date_leb_total, El.
    + apply (IH p eq_refl q Hq).
  - inversion H; subst.
    apply latest_start_none in Er; subst rest.
    destruct Hq as [<- | []]; apply date_leb_refl.
Qed.

(** The selected period is a row that covers today, and no covering row
    starts later. *)
Lemma current_period_latest (st : store) (today : date) (p : pay_period) :
  current_period st today = Some p ->
  forall q, In q (tbl_pay_periods st) -> covers today q = true ->
            Date.leb (pp_start_date q) (pp_start_date p) = true.
Proof.
  unfold current_period; intros H q Hq Hc.
  apply (latest_start_max _ p H), filter_In; auto.
Qed.

(** On valid dates a selected period has at least one day left: the guard
    on [days_remaining] never fires. *)
Lemma current_period_days_remaining (st : store) (today : date) (p : pay_period) :
  current_period st today = Some p ->
  Date.valid today = true -> Date.valid (pp_end_date p) = true ->
  0 < Date.sub_days (pp_end_date p) today + 1.
Proof.
  intros H Ht He.
  apply current_period_covers in H; destruct H as [_ Hc].
  unfold covers in Hc; apply andb_true_iff in Hc; destruct Hc as [_ Hc].
  rewrite (date_leb_toordinal _ _ Ht He) in Hc; apply Z.leb_le in Hc.
  unfold Date.sub_days; lia.
Qed.

(** ** The suggested limit *)

Lemma calculate_daily_limit_unfold (st : store) (today : date) (p : pay_period) :
  current_period st today = Some p ->
  0 < Date.sub_days (pp_end_date p) today + 1 ->
  calculate_daily_limit st today =
  Py.round2 (Py.max0
    ((pp_amount p - total_spent st (pp_start_date p) today
      - upcoming_bills st today (pp_end_date p) - planned_savings st)
     / inject_Z (Date.sub_days (pp_end_date p) today + 1))).
Proof.
  intros Hp Hd; unfold calculate_daily_limit; rewrite Hp.
  destruct (Z.leb_spec (Date.sub_days (pp_end_date p) today + 1) 0); [lia |].
  reflexivity.
Qed.

(** C1.  When a pay period is selected for today and at least one day of it
    remains, the suggested limit is [max(0, (amount - total_spent -
    upcoming_bills - planned_savings) / days_remaining)] rounded to 2
    decimal places: a whole number of cents that lies within half a cent of
    that value. *)
Theorem suggested_limit_formula (st : store) (today : date) (p : pay_period)
  (Hperiod : current_period st today = Some p)
  (Hdays : 0 < Date.sub_days (pp_end_date p) today + 1) :
  let days_remaining := Date.sub_days (pp_end_date p) today + 1 in
  let available :=
    (pp_amount p - total_spent st (pp_start_date p) today
     - upcoming_bills st today (pp_end_date p) - planned_savings st)%Q in
  let exact := Qmax 0 (available / inject_Z days_remaining) in
  calculate_daily_limit st today = Py.round2 (Py.max0 (available / inject_Z days_remaining))
  /\ exists cents : Z,
       calculate_daily_limit st today = cents # 100
       /\ (Qabs ((cents # 100) - exact) <= 1 # 200)%Q.
Proof.
  intros days_remaining available exact.
  rewrite (calculate_daily_limit_unfold st today p Hperiod Hdays).
  fold days_remaining; fold available.
  split; [reflexivity |].
  exists (Py.round_half_even (Py.max0 (available / inject_Z days_remaining) * 100)).
  split; [reflexivity |].
  unfold exact; rewrite <- max0_is_Qmax.
  apply round2_near.
Qed.

(** C8.  The suggested limit is never negative, whatever the bills and the
    planned savings add up to, and it is 0 when no pay period has
    [start_date <= today <= end_date]. *)
Theorem suggested_limit_nonneg (st : store) (today : date) :
  (0 <= calculate_daily_limit st today)%Q
  /\ ((forall p, In p (tbl_pay_periods st) -> covers today p = false) ->
      calculate_daily_limit st today = 0%Q).
Proof.
  split.
  - unfold calculate_daily_limit.
    destruct (current_period st today) as [p |]; [| apply Qle_refl].
    apply round2_nonneg.
    destruct (_ <=? 0); [apply Qle_refl | apply max0_nonneg].
  - intros H; unfold calculate_daily_limit.
    rewrite (no_period_no_current st today H); reflexivity.
Qed.

Lemma suggested_limit_formula_witness :
  current_period june_store (ymd 2024 6 5) = Some june_period
  /\ 0 < Date.sub_days (pp_end_date june_period) (ymd 2024 6 5) + 1
  /\ total_spent june_store (ymd 2024 6 1) (ymd 2024 6 5) = 300%Q
  /\ upcoming_bills june_store (ymd 2024 6 5) (ymd 2024 6 15) = 150%Q
  /\ planned_savings june_store = 200%Q
  /\ calculate_daily_limit june_store (ymd 2024 6 5) = (12273 # 100)%Q.
Proof.
  split; [reflexivity |]. split; [reflexivity |].
  split; [reflexivity |]. split; [reflexivity |]. split; [reflexivity |].
  destruct (suggested_limit_formula june_store (ymd 2024 6 5) june_period
              eq_refl eq_refl) as [H _].
  rewrite H; reflexivity.
Defined.

Lemma suggested_limit_nonneg_witness :
  (forall p, In p (tbl_pay_periods june_store) -> covers (ymd 2024 6 16) p = false)
  /\ calculate_daily_limit june_store (ymd 2024 6 16) = 0%Q.
Proof.
  assert (forall p, In p (tbl_pay_periods june_store) -> covers (ymd 2024 6 16) p = false)
    as Hnone.
  { intros p [<- | []]; reflexivity. }
  split; [exact Hnone |].
  exact (proj2 (suggested_limit_nonneg june_store (ymd 2024 6 16)) Hnone).
Defined.

(** C3.  The rounding of the quotient is not round-half-up.  With 1000.25
    for the last two days of a period the quotient is exactly 500.125; its
    third decimal is 5, half-up gives 500.13, and [calculate_daily_limit]
    returns 500.12. *)
Theorem rounding_is_not_half_up :
  ((100025 # 100) / inject_Z 2 == 500125 # 1000)%Q
  /\ Py.round2_half_up ((100025 # 100) / inject_Z 2) = (50013 # 100)%Q
  /\ calculate_daily_limit half_cent_store (ymd 2024 6 14) = (50012 # 100)%Q.
Proof. repeat split. Qed.

(** ** The frequency column *)

Lemma due_between_same (lo hi : date) (r r' : recurring_expense) :
  same_but_frequency r r' -> due_between lo hi r = due_between lo hi r'.
Proof.
  intros (_ & _ & _ & Hdue & _); unfold due_between; rewrite Hdue; reflexivity.
Qed.

Lemma due_amounts_same (lo hi : date) (rs rs' : list recurring_expense) :
  Forall2 same_but_frequency rs rs' ->
  map re_amount (filter (due_between lo hi) rs)
  = map re_amount (filter (due_between lo hi) rs').
Proof.
  induction 1 as [| r r' rs rs' Hr _ IH]; simpl; [reflexivity |].
  rewrite <- (due_between_same lo hi r r' Hr).
  destruct (due_between lo hi r); simpl; [| exact IH].
  destruct Hr as (_ & _ & -> & _); rewrite IH; reflexivity.
Qed.

Lemma fold_left_Qplus_wd (xs : list Q) (u v : Q) :
  (u == v)%Q -> (fold_left Qplus xs u == fold_left Qplus xs v)%Q.
Proof.
  revert u v; induction xs as [| y ys IH]; simpl; intros u v E; [exact E |].
  apply IH; rewrite E; reflexivity.
Qed.

Lemma fold_left_Qplus_shift (xs : list Q) (a b : Q) :
  (fold_left Qplus xs (a + b) == a + fold_left Qplus xs b)%Q.
Proof.
  revert b; induction xs as [| x xs IH]; simpl; intros b; [reflexivity |].
  rewrite <- IH; apply fold_left_Qplus_wd; ring.
Qed.

Lemma sql_sum_cons (x : Q) (xs : list Q) : (sql_sum (x :: xs) == x + sql_sum xs)%Q.
Proof.
  unfold sql_sum; simpl.
  rewrite <- fold_left_Qplus_shift; apply fold_left_Qplus_wd; ring.
Qed.

Lemma upcoming_bills_once_each (st : store) (lo hi : date) :
  (upcoming_bills st lo hi == once_each lo hi (tbl_recurring_expenses st))%Q.
Proof.
  unfold upcoming_bills.
  induction (tbl_recurring_expenses st) as [| r rs IH]; simpl; [reflexivity |].
  destruct (due_between lo hi r); simpl.
  - rewrite sql_sum_cons, IH; reflexivity.
  - rewrite IH; ring.
Qed.

(** C9.  Two stores that differ only in the frequency of their recurring
    expenses get the same suggested limit on every day; the bills total
    takes each expense due in the window once, whatever its frequency. *)
Theorem frequency_has_no_effect (st st' : store) (today : date)
  (Hsame : differ_only_in_frequency st st') :
  calculate_daily_limit st today = calculate_daily_limit st' today
  /\ forall period_end,
       (upcoming_bills st today period_end
        == once_each today period_end (tbl_recurring_expenses st'))%Q.
Proof.
  destruct Hsame as (Hp & Hg & Ht & _ & Hr).
  assert (forall lo hi, upcoming_bills st lo hi = upcoming_bills st' lo hi) as Hbills.
  { intros lo hi; unfold upcoming_bills.
    rewrite (due_amounts_same lo hi _ _ Hr); reflexivity. }
  split.
  - unfold calculate_daily_limit, current_period, total_spent, planned_savings.
    rewrite Hp, Hg, Ht.
    destruct (latest_start _) as [p |]; [| reflexivity].
    rewrite Hbills; reflexivity.
  - intros e; rewrite Hbills; apply upcoming_bills_once_each.
Qed.

Lemma frequency_has_no_effect_witness :
  differ_only_in_frequency june_store june_store_yearly
  /\ calculate_daily_limit june_store (ymd 2024 6 5)
     = calculate_daily_limit june_store_yearly (ymd 2024 6 5).
Proof.
  assert (differ_only_in_frequency june_store june_store_yearly) as H.
  { repeat split; simpl; repeat constructor. }
  split; [exact H |].
  exact (proj1 (frequency_has_no_effect june_store june_store_yearly (ymd 2024 6 5) H)).
Defined.

(** ** Confirming a limit *)

Lemma budget_exists_app (d : date) (bs bs' : list daily_budget) :
  budget_exists d (bs ++ bs') = budget_exists d bs || budget_exists d bs'.
Proof. apply existsb_app. Qed.

Lemma budget_exists_in (d : date) (bs : list daily_budget) :
  budget_exists d bs = true <-> exists b, In b bs /\ db_date b = d.
Proof.
  unfold budget_exists; rewrite existsb_exists.
  split; intros (b & Hin & H); exists b; split; auto; apply date_eqb_eq; exact H.
Qed.

Lemma budget_exists_same_dates (d : date) (f : daily_budget -> daily_budget)
      (bs : list daily_budget) :
  (forall b, db_date (f b) = db_date b) ->
  budget_exists d (map f bs) = budget_exists d bs.
Proof.
  intros Hf; induction bs as [| b bs IH]; simpl; [reflexivity |].
  rewrite Hf, IH; reflexivity.
Qed.

Lemma set_confirmed_limit_date (d : date) (v : option Q) (b : daily_budget) :
  db_date (set_confirmed_limit d v b) = db_date b.
Proof. unfold set_confirmed_limit; destruct (Date.eqb _ _); reflexivity. Qed.

Lemma set_confirmed_limit_frame (d : date) (v : option Q) (b : daily_budget) :
  only_confirmed_changed d b (set_confirmed_limit d v b).
Proof.
  unfold only_confirmed_changed, set_confirmed_limit.
  destruct (Date.eqb (db_date b) d) eqn:E; simpl; repeat split; auto.
  apply date_eqb_eq in E; intros H; contradiction.
Qed.

Lemma Forall2_map_self {A : Type} (R : A -> A -> Prop) (f : A -> A) (l : list A) :
  (forall a, R a (f a)) -> Forall2 R l (map f l).
Proof. intros H; induction l; simpl; constructor; auto. Qed.

Lemma confirm_daily_limit_number (st : store) (today : date) (data : json_object)
      (amount : Q) :
  get_or (dict_get "limit" data) (JNum 0) = JNum amount ->
  exists st', confirm_daily_limit st today data = Ok st' /\ confirm_post today amount st st'.
Proof.
  intros Hlimit; unfold confirm_daily_limit; rewrite Hlimit.
  destruct (budget_exists today (tbl_daily_budgets st)) eqn:E.
  - eexists; split; [reflexivity |].
    unfold confirm_post; simpl; repeat split; try reflexivity.
    + rewrite budget_exists_same_dates by apply set_confirmed_limit_date; exact E.
    + intros b Hin Hd. apply in_map_iff in Hin; destruct Hin as (b0 & <- & _).
      rewrite set_confirmed_limit_date in Hd.
      unfold set_confirmed_limit.
      apply date_eqb_eq in Hd; rewrite Hd; reflexivity.
    + intros _; apply Forall2_map_self; intros b; apply set_confirmed_limit_frame.
    + intros H; congruence.
  - eexists; split; [reflexivity |].
    unfold confirm_post; simpl; repeat split; try reflexivity.
    + rewrite budget_exists_app; simpl.
      rewrite date_eqb_refl; apply orb_true_iff; right; reflexivity.
    + intros b Hin Hd. apply in_app_iff in Hin; destruct Hin as [Hin | [<- | []]].
      * assert (budget_exists today (tbl_daily_budgets st) = true) as Habs
          by (apply budget_exists_in; exists b; auto).
        congruence.
      * reflexivity.
    + intros H; congruence.
Qed.

(** C6.  Confirming [amount] on a day leaves a [DailyBudget] for that day
    whose confirmed limit is [amount].  A row that existed keeps its
    allocated limit and its actual spending and only has its confirmed limit
    set; otherwise a row is created with both limits equal to [amount].
    Confirming again replaces the confirmed limit and nothing else. *)
Theorem confirm_sets_only_confirmed_limit (st : store) (today : date)
    (data : json_object) (amount : Q)
    (Hlimit : dict_get "limit" data = Some (JNum amount)) :
  exists st',
    confirm_daily_limit st today data = Ok st'
    /\ confirm_post today amount st st'
    /\ forall data2 amount2,
         dict_get "limit" data2 = Some (JNum amount2) ->
         exists st'',
           confirm_daily_limit st' today data2 = Ok st''
           /\ Forall2 (only_confirmed_changed today)
                (tbl_daily_budgets st') (tbl_daily_budgets st'')
           /\ forall b, In b (tbl_daily_budgets st'') -> db_date b = today ->
                        db_confirmed_limit b = Some amount2.
Proof.
  destruct (confirm_daily_limit_number st today data amount) as (st' & Hok & Hpost).
  { rewrite Hlimit; reflexivity. }
  exists st'; split; [exact Hok |]; split; [exact Hpost |].
  intros data2 amount2 Hlimit2.
  destruct (confirm_daily_limit_number st' today data2 amount2) as (st'' & Hok2 & Hpost2).
  { rewrite Hlimit2; reflexivity. }
  exists st''; split; [exact Hok2 |].
  destruct Hpost as (_ & _ & _ & _ & Hex & _).
  destruct Hpost2 as (_ & _ & _ & _ & _ & Hconf & Hframe & _).
  split; [exact (Hframe Hex) | exact Hconf].
Qed.

Lemma confirm_sets_only_confirmed_limit_witness :
  dict_get "limit" [("limit", JNum 40)] = Some (JNum 40)
  /\ exists st',
       confirm_daily_limit june_store (ymd 2024 6 5) [("limit", JNum 40)] = Ok st'
       /\ confirm_post (ymd 2024 6 5) 40 june_store st'.
Proof.
  split; [reflexivity |].
  destruct (confirm_sets_only_confirmed_limit june_store (ymd 2024 6 5)
              [("limit", JNum 40)] 40 eq_refl) as (st' & Hok & Hpost & _).
  exists st'; split; assumption.
Defined.

(** C10.  A request body without a limit is served as a confirmation of 0:
    the day's [DailyBudget] ends up with confirmed limit 0, and with
    allocated limit 0 too when the row is created by the request. *)
Theorem confirm_without_limit (st : store) (today : date) (data : json_object)
    (Hmissing : dict_get "limit" data = None) :
  exists st',
    confirm_daily_limit st today data = Ok st'
    /\ confirm_daily_limit st today data
       = confirm_daily_limit st today [("limit", JNum 0)]
    /\ budget_exists today (tbl_daily_budgets st') = true
    /\ forall b, In b (tbl_daily_budgets st') -> db_date b = today ->
         db_confirmed_limit b = Some 0%Q
         /\ (budget_exists today (tbl_daily_budgets st) = false ->
             db_allocated_limit b = 0%Q).
Proof.
  destruct (confirm_daily_limit_number st today data 0) as (st' & Hok & Hpost).
  { rewrite Hmissing; reflexivity. }
  exists st'; split; [exact Hok |].
  split; [unfold confirm_daily_limit; rewrite Hmissing; reflexivity |].
  destruct Hpost as (_ & _ & _ & _ & Hex & Hconf & _ & Hnew).
  split; [exact Hex |].
  intros b Hin Hd; split; [exact (Hconf b Hin Hd) |].
  intros Hnone; rewrite (Hnew Hnone) in Hin.
  apply in_app_iff in Hin; destruct Hin as [Hin | [<- | []]]; [| reflexivity].
  assert (budget_exists today (tbl_daily_budgets st) = true) as Habs
    by (apply budget_exists_in; exists b; auto).
  congruence.
Qed.

Lemma confirm_without_limit_witness :
  dict_get "limit" [("note", JNull)] = None
  /\ exists st',
       confirm_daily_limit init_db (ymd 2024 6 5) [("note", JNull)] = Ok st'
       /\ tbl_daily_budgets st' = [mk_daily_budget 1 (ymd 2024 6 5) 0 (Some 0%Q) 0].
Proof.
  split; [reflexivity |].
  destruct (confirm_without_limit init_db (ymd 2024 6 5) [("note", JNull)] eq_refl)
    as (st' & Hok & _).
  exists st'; split; [exact Hok |].
  cbv in Hok; inversion Hok; reflexivity.
Defined.

(** C4, as stated, fails: on the empty store a confirmation of -5 is
    served, and -5 is stored as the confirmed limit. *)
Lemma negative_limit_is_stored :
  confirm_daily_limit init_db (ymd 2024 6 5) [("limit", JNum (-5))]
  = Ok (mk_store [] [] [] [] [mk_daily_budget 1 (ymd 2024 6 5) (-5) (Some (-5)%Q) 0])
  /\ ~ rejects_negative_limits.
Proof.
  split; [reflexivity |].
  intros H.
  apply (H init_db (ymd 2024 6 5) [("limit", JNum (-5))] (-5)%Q
           eq_refl eq_refl _ eq_refl).
Qed.

(** C4, amended.  The amount is not checked: a confirmation of any number,
    negative ones included, is served and stores the number as the day's
    confirmed limit.  The handler raises only when the limit is null and the
    day has no [DailyBudget] yet (the allocated limit may not be null). *)
Theorem confirm_accepts_any_amount (st : store) (today : date) (data : json_object) :
  (forall amount, dict_get "limit" data = Some (JNum amount) ->
     exists st',
       confirm_daily_limit st today data = Ok st'
       /\ budget_exists today (tbl_daily_budgets st') = true
       /\ forall b, In b (tbl_daily_budgets st') -> db_date b = today ->
                    db_confirmed_limit b = Some amount)
  /\ (confirm_daily_limit st today data = IntegrityError <->
      dict_get "limit" data = Some JNull
      /\ budget_exists today (tbl_daily_budgets st) = false).
Proof.
  split.
  - intros amount Hlimit.
    destruct (confirm_daily_limit_number st today data amount) as (st' & Hok & Hpost).
    { rewrite Hlimit; reflexivity. }
    exists st'; split; [exact Hok |].
    destruct Hpost as (_ & _ & _ & _ & Hex & Hconf & _); auto.
  - unfold confirm_daily_limit.
    destruct (dict_get "limit" data) as [[| q] |] eqn:El; simpl;
      destruct (budget_exists today (tbl_daily_budgets st)) eqn:Ex;
      split; try discriminate; try (intros [? ?]; discriminate); auto.
Qed.

Lemma confirm_accepts_any_amount_witness :
  dict_get "limit" [("limit", JNum (-5))] = Some (JNum (-5))
  /\ exists st',
       confirm_daily_limit june_store (ymd 2024 6 5) [("limit", JNum (-5))] = Ok st'
       /\ budget_exists (ymd 2024 6 5) (tbl_daily_budgets st') = true.
Proof.
  split; [reflexivity |].
  destruct (proj1 (confirm_accepts_any_amount june_store (ymd 2024 6 5)
                     [("limit", JNum (-5))]) (-5)%Q eq_refl)
    as (st' & Hok & Hex & _).
  exists st'; split; assumption.
Defined.

(** ** Recording a transaction *)

Lemma add_transaction_transactions (st : store) (today : date) (form : transaction_form) :
  tbl_transactions (add_transaction st today form)
  = tbl_transactions st ++ [inserted_transaction st today form].
Proof.
  unfold add_transaction, inserted_transaction.
  destruct (_ && _); [destruct (budget_exists _ _) |];
    (destruct (String.eqb _ "savings_contribution");
     [destruct (form_goal_id form) |]); reflexivity.
Qed.

Lemma add_transaction_daily_budgets (st : store) (today : date) (form : transaction_form) :
  tbl_daily_budgets (add_transaction st today form)
  = if String.eqb (get_or (form_type form) "expense") "expense"
       && Date.eqb (get_or (form_date form) today) today
    then
      map (set_actual_spent (get_or (form_date form) today)
             (expenses_on (tbl_transactions st ++ [inserted_transaction st today form])
                (get_or (form_date form) today)))
          (if budget_exists (get_or (form_date form) today) (tbl_daily_budgets st)
           then tbl_daily_budgets st
           else tbl_daily_budgets st ++
                [mk_daily_budget (next_id (map db_id (tbl_daily_budgets st)))
                   (get_or (form_date form) today) (calculate_daily_limit st today) None 0])
    else tbl_daily_budgets st.
Proof.
  unfold add_transaction, inserted_transaction.
  destruct (_ && _); [simpl; destruct (budget_exists _ _) |];
    (destruct (String.eqb _ "savings_contribution");
     [destruct (form_goal_id form) |]); reflexivity.
Qed.

Lemma add_transaction_savings_goals (st : store) (today : date) (form : transaction_form) :
  tbl_savings_goals (add_transaction st today form)
  = if String.eqb (get_or (form_type form) "expense") "savings_contribution"
    then match form_goal_id form with
         | Some goal_id => map (add_to_goal goal_id (form_amount form)) (tbl_savings_goals st)
         | None => tbl_savings_goals st
         end
    else tbl_savings_goals st.
Proof.
  unfold add_transaction.
  destruct (_ && _); [simpl; destruct (budget_exists _ _) |];
    (destruct (String.eqb _ "savings_contribution");
     [destruct (form_goal_id form) |]); reflexivity.
Qed.

Lemma sql_sum_snoc (xs : list Q) (x : Q) : sql_sum (xs ++ [x]) = (sql_sum xs + x)%Q.
Proof. unfold sql_sum; rewrite fold_left_app; reflexivity. Qed.

Lemma expenses_on_snoc (ts : list transaction) (t : transaction) (d : date) :
  expenses_on (ts ++ [t]) d
  = if spent_on d t then (expenses_on ts d + tx_amount t)%Q else expenses_on ts d.
Proof.
  unfold expenses_on; rewrite filter_app; simpl.
  destruct (spent_on d t); simpl.
  - rewrite map_app; apply sql_sum_snoc.
  - rewrite app_nil_r; reflexivity.
Qed.

Lemma set_actual_spent_date (d : date) (v : Q) (b : daily_budget) :
  db_date (set_actual_spent d v b) = db_date b.
Proof. unfold set_actual_spent; destruct (Date.eqb _ _); reflexivity. Qed.

Lemma set_actual_spent_frame (d : date) (v : Q) (b : daily_budget) :
  only_actual_spent_changed d b (set_actual_spent d v b).
Proof.
  unfold only_actual_spent_changed, set_actual_spent.
  destruct (Date.eqb (db_date b) d) eqn:E; simpl; repeat split; auto.
  apply date_eqb_eq in E; intros H; contradiction.
Qed.

Lemma set_actual_spent_absent (d : date) (v : Q) (bs : list daily_budget) :
  budget_exists d bs = false -> map (set_actual_spent d v) bs = bs.
Proof.
  induction bs as [| b bs IH]; simpl; intros H; [reflexivity |].
  apply orb_false_iff in H; destruct H as [Hb Hbs].
  unfold set_actual_spent at 1; rewrite Hb, (IH Hbs); reflexivity.
Qed.

(** C5.  Recording an expense dated today appends it to the log and leaves
    a [DailyBudget] for today whose actual spending is the sum of today's
    expenses, the new one included.  A missing row is created with the
    suggested limit as its allocated limit; a row that exists only has its
    actual spending recomputed. *)
Theorem expense_today_updates_actual_spent (st : store) (today : date)
    (form : transaction_form)
    (Htype : get_or (form_type form) "expense" = "expense")
    (Hdate : get_or (form_date form) today = today) :
  let st' := add_transaction st today form in
  tbl_transactions st' = tbl_transactions st ++ [inserted_transaction st today form]
  /\ budget_exists today (tbl_daily_budgets st') = true
  /\ (forall b, In b (tbl_daily_budgets st') -> db_date b = today ->
      db_actual_spent b = expenses_on (tbl_transactions st') today)
  /\ expenses_on (tbl_transactions st') today
     = (expenses_on (tbl_transactions st) today + form_amount form)%Q
  /\ (budget_exists today (tbl_daily_budgets st) = false ->
      tbl_daily_budgets st' =
      tbl_daily_budgets st ++
      [mk_daily_budget (next_id (map db_id (tbl_daily_budgets st))) today
         (calculate_daily_limit st today) None
         (expenses_on (tbl_transactions st') today)])
  /\ (budget_exists today (tbl_daily_budgets st) = true ->
      Forall2 (only_actual_spent_changed today)
        (tbl_daily_budgets st) (tbl_daily_budgets st')).
Proof.
  intros st'; unfold st'; clear st'.
  rewrite add_transaction_transactions, add_transaction_daily_budgets.
  rewrite Htype, Hdate, date_eqb_refl; simpl andb; cbv iota.
  set (ts' := tbl_transactions st ++ [inserted_transaction st today form]).
  split; [reflexivity |].
  split.
  { rewrite budget_exists_same_dates by apply set_actual_spent_date.
    destruct (budget_exists today (tbl_daily_budgets st)) eqn:E; [exact E |].
    rewrite budget_exists_app; simpl; rewrite date_eqb_refl.
    apply orb_true_iff; right; reflexivity. }
  split.
  { intros b Hin Hd.
    apply in_map_iff in Hin; destruct Hin as (b0 & <- & _).
    rewrite set_actual_spent_date in Hd.
    unfold set_actual_spent; apply date_eqb_eq in Hd; rewrite Hd; reflexivity. }
  split.
  { unfold ts'; rewrite expenses_on_snoc.
    unfold spent_on, is_expense, inserted_transaction; simpl.
    rewrite Htype, Hdate, date_eqb_refl; reflexivity. }
  split.
  - intros Hnone; rewrite Hnone, map_app; simpl.
    rewrite (set_actual_spent_absent _ _ _ Hnone).
    unfold set_actual_spent; simpl; rewrite date_eqb_refl; reflexivity.
  - intros Hex; rewrite Hex.
    apply Forall2_map_self; intros b; apply set_actual_spent_frame.
Qed.

Lemma expense_today_updates_actual_spent_witness :
  let form := mk_transaction_form 25 "food" "lunch" None None None in
  get_or (form_type form) "expense" = "expense"
  /\ get_or (form_date form) (ymd 2024 6 4) = ymd 2024 6 4
  /\ tbl_daily_budgets (add_transaction june_store (ymd 2024 6 4) form)
     = [mk_daily_budget 1 (ymd 2024 6 4)
          (calculate_daily_limit june_store (ymd 2024 6 4)) None 205].
Proof.
  intros form.
  split; [reflexivity |]. split; [reflexivity |].
  destruct (expense_today_updates_actual_spent june_store (ymd 2024 6 4) form
              eq_refl eq_refl) as (_ & _ & _ & _ & Hnew & _).
  rewrite (Hnew eq_refl); reflexivity.
Defined.

(** ** Savings contributions *)

Lemma add_to_goal_contributed (goal_id : Z) (amount : Q) (g : savings_goal) :
  contributed goal_id amount g (add_to_goal goal_id amount g).
Proof.
  unfold contributed, add_to_goal; destruct (sg_id g =? goal_id); reflexivity.
Qed.

Lemma add_to_goal_absent (goal_id : Z) (amount : Q) (gs : list savings_goal) :
  (forall g, In g gs -> sg_id g <> goal_id) -> map (add_to_goal goal_id amount) gs = gs.
Proof.
  induction gs as [| g gs IH]; simpl; intros H; [reflexivity |].
  rewrite IH by (intros g' Hin; apply H; auto).
  unfold add_to_goal.
  destruct (Z.eqb_spec (sg_id g) goal_id) as [E | _]; [| reflexivity].
  exfalso; apply (H g); auto.
Qed.

(** C7.  A savings contribution is always appended to the log.  With a
    goal id, the goal of that id, if there is one, has exactly the amount
    added to its current amount and every other goal is unchanged; without
    a goal id, or with an id no goal has, no goal changes.  The handler has
    no failing path. *)
Theorem savings_contribution_updates_goal (st : store) (today : date)
    (form : transaction_form)
    (Htype : form_type form = Some "savings_contribution") :
  let st' := add_transaction st today form in
  tbl_transactions st' = tbl_transactions st ++ [inserted_transaction st today form]
  /\ tbl_daily_budgets st' = tbl_daily_budgets st
  /\ match form_goal_id form with
     | Some goal_id =>
         Forall2 (contributed goal_id (form_amount form))
           (tbl_savings_goals st) (tbl_savings_goals st')
         /\ ((forall g, In g (tbl_savings_goals st) -> sg_id g <> goal_id) ->
             tbl_savings_goals st' = tbl_savings_goals st)
     | None => tbl_savings_goals st' = tbl_savings_goals st
     end.
Proof.
  intros st'; unfold st'.
  rewrite add_transaction_transactions, add_transaction_daily_budgets,
    add_transaction_savings_goals, Htype; simpl.
  split; [reflexivity |]. split; [reflexivity |].
  destruct (form_goal_id form) as [goal_id |]; [| reflexivity].
  split.
  - apply Forall2_map_self; intros g; apply add_to_goal_contributed.
  - apply add_to_goal_absent.
Qed.

Lemma savings_contribution_updates_goal_witness :
  let form :=
    mk_transaction_form 60 "goal" "trip" None (Some "savings_contribution") (Some 2) in
  form_type form = Some "savings_contribution"
  /\ map sg_current_amount (tbl_savings_goals (add_transaction june_store (ymd 2024 6 5) form))
     = [0%Q; (100 + 60)%Q].
Proof.
  intros form; split; [reflexivity |].
  destruct (savings_contribution_updates_goal june_store (ymd 2024 6 5) form eq_refl)
    as (_ & _ & Hgoals & _).
  inversion Hgoals as [| g1 g1' r1 r1' H1 Hrest]; subst.
  inversion Hrest as [| g2 g2' r2 r2' H2 Hnil]; subst.
  inversion Hnil; subst.
  cbv in H1, H2; subst; reflexivity.
Defined.

(** ** Actual spending over a history of requests *)

Lemma expenses_on_none (ts : list transaction) (d : date) :
  (forall t, In t ts -> spent_on d t = false) -> expenses_on ts d = 0%Q.
Proof.
  intros H; unfold expenses_on.
  replace (filter (spent_on d) ts) with (@nil transaction); [reflexivity |].
  symmetry; induction ts as [| t ts IH]; simpl; [reflexivity |].
  rewrite (H t) by (left; reflexivity).
  apply IH; intros t' Hin; apply H; right; exact Hin.
Qed.

Lemma confirm_keeps_inv (st : store) (today : date) (data : json_object) :
  budget_inv st /\ every_expense_has_budget st ->
  budget_inv (serve st today (PostConfirmDailyLimit data))
  /\ every_expense_has_budget (serve st today (PostConfirmDailyLimit data)).
Proof.
  intros [Hinv Hhas]; unfold serve, confirm_daily_limit.
  destruct (budget_exists today (tbl_daily_budgets st)) eqn:Ex.
  - split.
    + intros b Hin; simpl in Hin |- *.
      apply in_map_iff in Hin; destruct Hin as (b0 & <- & Hin0).
      rewrite set_confirmed_limit_date, <- (Hinv b0 Hin0).
      unfold set_confirmed_limit; destruct (Date.eqb _ _); reflexivity.
    + intros t Hin He; simpl in Hin |- *.
      rewrite budget_exists_same_dates by apply set_confirmed_limit_date.
      apply Hhas; assumption.
  - destruct (get_or (dict_get "limit" data) (JNum 0)) as [| q]; [split; assumption |].
    split.
    + intros b Hin; simpl in Hin |- *.
      apply in_app_iff in Hin; destruct Hin as [Hin | [<- | []]]; [apply Hinv, Hin |].
      simpl; symmetry; apply expenses_on_none.
      intros t Hin; unfold spent_on.
      destruct (is_expense t) eqn:He; [| apply andb_false_r].
      destruct (Date.eqb (tx_date t) today) eqn:Ed; [| reflexivity].
      apply date_eqb_eq in Ed; rewrite <- Ed in Ex.
      rewrite (Hhas t Hin He) in Ex; discriminate.
    + intros t Hin He; simpl in Hin |- *.
      rewrite budget_exists_app, (Hhas t Hin He); reflexivity.
Qed.

Lemma add_transaction_keeps_inv (st : store) (today : date) (form : transaction_form) :
  expense_on_the_day today (PostAddTransaction form) = true ->
  budget_inv st /\ every_expense_has_budget st ->
  budget_inv (add_transaction st today form)
  /\ every_expense_has_budget (add_transaction st today form).
Proof.
  intros Hday [Hinv Hhas].
  unfold budget_inv, every_expense_has_budget.
  rewrite add_transaction_transactions, add_transaction_daily_budgets.
  set (t := inserted_transaction st today form).
  assert (tx_date t = get_or (form_date form) today) as Htd by reflexivity.
  assert (is_expense t = String.eqb (get_or (form_type form) "expense") "expense")
    as Hte by reflexivity.
  simpl in Hday.
  destruct (String.eqb (get_or (form_type form) "expense") "expense") eqn:Etype.
  - simpl in Hday; rewrite Hday; simpl andb; cbv iota.
    apply date_eqb_eq in Hday; rewrite Hday in *.
    set (bs1 := if budget_exists today (tbl_daily_budgets st)
                then tbl_daily_budgets st
                else tbl_daily_budgets st ++
                     [mk_daily_budget (next_id (map db_id (tbl_daily_budgets st)))
                        today (calculate_daily_limit st today) None 0]).
    assert (forall d, budget_exists d (tbl_daily_budgets st) = true ->
                      budget_exists d bs1 = true) as Hsup.
    { intros d Hd; unfold bs1.
      destruct (budget_exists today (tbl_daily_budgets st)); [exact Hd |].
      rewrite budget_exists_app, Hd; reflexivity. }
    assert (budget_exists today bs1 = true) as Htoday.
    { unfold bs1.
      destruct (budget_exists today (tbl_daily_budgets st)) eqn:Ex; [exact Ex |].
      rewrite budget_exists_app; simpl; rewrite date_eqb_refl.
      apply orb_true_iff; right; reflexivity. }
    split.
    + intros b Hin.
      apply in_map_iff in Hin; destruct Hin as (b0 & <- & Hin0).
      rewrite set_actual_spent_date.
      unfold set_actual_spent.
      destruct (Date.eqb (db_date b0) today) eqn:Ed; simpl.
      * apply date_eqb_eq in Ed; rewrite Ed; reflexivity.
      * rewrite expenses_on_snoc.
        unfold spent_on at 1; rewrite Htd, date_eqb_sym, Ed; simpl.
        apply Hinv.
        unfold bs1 in Hin0.
        destruct (budget_exists today (tbl_daily_budgets st)); [exact Hin0 |].
        apply in_app_iff in Hin0; destruct Hin0 as [Hin0 | [<- | []]]; [exact Hin0 |].
        simpl in Ed; rewrite date_eqb_refl in Ed; discriminate.
    + intros t' Hin He.
      rewrite budget_exists_same_dates by apply set_actual_spent_date.
      apply in_app_iff in Hin; destruct Hin as [Hin | [<- | []]].
      * apply Hsup, Hhas; assumption.
      * rewrite Htd; exact Htoday.
  - simpl andb; cbv iota.
    split.
    + intros b Hin.
      rewrite expenses_on_snoc.
      unfold spent_on at 1; rewrite Hte, andb_false_r.
      apply Hinv, Hin.
    + intros t' Hin He.
      apply in_app_iff in Hin; destruct Hin as [Hin | [<- | []]].
      * apply Hhas; assumption.
      * congruence.
Qed.

Lemma serve_keeps_inv (st : store) (today : date) (r : request) :
  expense_on_the_day today r = true ->
  budget_inv st /\ every_expense_has_budget st ->
  budget_inv (serve st today r) /\ every_expense_has_budget (serve st today r).
Proof.
  intros Hday H; destruct r as [data | form | n t d m | n a f d c | a s e].
  - apply confirm_keeps_inv, H.
  - apply add_transaction_keeps_inv; assumption.
  - exact H.
  - exact H.
  - exact H.
Qed.

Lemma run_keeps_inv (history : list (date * request)) (st : store) :
  expenses_on_the_day history = true ->
  budget_inv st /\ every_expense_has_budget st ->
  budget_inv (run st history) /\ every_expense_has_budget (run st history).
Proof.
  revert st; induction history as [| [today r] rest IH]; simpl; intros st Hday H.
  - exact H.
  - apply andb_true_iff in Hday; destruct Hday as [Hr Hrest].
    apply IH; [exact Hrest |].
    apply serve_keeps_inv; assumption.
Qed.

(** C2, as stated, fails: a limit is confirmed on June 4th, and on June 5th
    an expense of 10 is entered under June 4th.  The row of June 4th keeps
    an actual spending of 0 while that day's expenses add up to 10. *)
Lemma late_expense_breaks_actual_spent :
  tbl_daily_budgets (run init_db late_entry_history)
  = [mk_daily_budget 1 (ymd 2024 6 4) 50 (Some 50%Q) 0]
  /\ expenses_on (tbl_transactions (run init_db late_entry_history)) (ymd 2024 6 4) = 10%Q
  /\ ~ (forall history, budget_inv (run init_db history)).
Proof.
  split; [reflexivity |]. split; [reflexivity |].
  intros H.
  specialize (H late_entry_history
                (mk_daily_budget 1 (ymd 2024 6 4) 50 (Some 50%Q) 0)
                (or_introl eq_refl)).
  discriminate H.
Qed.

(** C2, amended.  In every store reached from the empty one by requests
    none of which records an expense under a date other than the day it is
    served on, each [DailyBudget] row carries the sum of the expenses dated
    on its date.  Confirmations, savings contributions under any date, and
    new goals, bills and pay periods all keep it so. *)
Theorem actual_spent_tracks_same_day_expenses (history : list (date * request))
    (Hday : expenses_on_the_day history = true) :
  budget_inv (run init_db history).
Proof.
  apply (run_keeps_inv history init_db Hday).
  split; intros x [].
Qed.

Lemma actual_spent_tracks_same_day_expenses_witness :
  expenses_on_the_day same_day_history = true
  /\ budget_inv (run init_db same_day_history)
  /\ map db_actual_spent (tbl_daily_budgets (run init_db same_day_history)) = [12%Q; 8%Q].
Proof.
  split; [reflexivity |].
  split; [| reflexivity].
  apply (actual_spent_tracks_same_day_expenses same_day_history); reflexivity.
Defined.

(** * Further properties of the handlers *)

(** ** Rounding is monotone and respects equality of rationals *)

Section RoundingOrder.

Local Open Scope Q_scope.

Lemma round_half_even_comp (x y : Q) :
  x == y -> Py.round_half_even x = Py.round_half_even y.
Proof.
  intros E; unfold Py.round_half_even.
  rewrite (Qfloor_comp x y E).
  assert (2 * (x - inject_Z (Qfloor y)) == 2 * (y - inject_Z (Qfloor y))) as E2
    by (rewrite E; reflexivity).
  rewrite (Qcompare_comp _ _ E2 1 1 (Qeq_refl 1)); reflexivity.
Qed.

Lemma round2_comp (x y : Q) : x == y -> Py.round2 x = Py.round2 y.
Proof.
  intros E; unfold Py.round2.
  rewrite (round_half_even_comp (x * 100) (y * 100)) by (rewrite E; reflexivity).
  reflexivity.
Qed.

Lemma round_half_even_mono (x y : Q) :
  x <= y -> (Py.round_half_even x <= Py.round_half_even y)%Z.
Proof.
  intros Hxy.
  pose proof (Qfloor_resp_le x y Hxy) as Hf.
  destruct (Z.eq_dec (Qfloor x) (Qfloor y)) as [E | N].
  - unfold Py.round_half_even; rewrite E.
    destruct (Qcompare (2 * (x - inject_Z (Qfloor y))) 1) eqn:Cx;
      destruct (Qcompare (2 * (y - inject_Z (Qfloor y))) 1) eqn:Cy;
      try (destruct (Z.even (Qfloor y))); try lia; exfalso;
      repeat match goal with
             | H : Qcompare _ _ = Eq |- _ => apply Qeq_alt in H
             | H : Qcompare _ _ = Lt |- _ => apply Qlt_alt in H
             | H : Qcompare _ _ = Gt |- _ => apply Qgt_alt in H
             end;
      lra.
  - destruct (round_half_even_cases x) as [-> | ->];
      destruct (round_half_even_cases y) as [-> | ->]; lia.
Qed.

Lemma round2_mono (x y : Q) : x <= y -> Py.round2 x <= Py.round2 y.
Proof.
  intros Hxy; unfold Py.round2, Qle; simpl.
  assert (Py.round_half_even (x * 100) <= Py.round_half_even (y * 100))%Z.
  { apply round_half_even_mono, Qmult_le_compat_r; [exact Hxy | discriminate]. }
  lia.
Qed.

Lemma max0_mono (x y : Q) : x <= y -> Py.max0 x <= Py.max0 y.
Proof.
  intros Hxy; rewrite !max0_is_Qmax.
  apply Q.max_le_compat_l, Hxy.
Qed.

Lemma max0_comp (x y : Q) : x == y -> Py.max0 x == Py.max0 y.
Proof. intros E; rewrite !max0_is_Qmax, E; reflexivity. Qed.

Lemma div_days_mono (a b : Q) (d : Z) : (0 < d)%Z -> a <= b -> a / inject_Z d <= b / inject_Z d.
Proof.
  intros Hd Hab; unfold Qdiv.
  apply Qmult_le_compat_r; [exact Hab |].
  apply Qinv_le_0_compat.
  change 0 with (inject_Z 0); rewrite <- Zle_Qle; lia.
Qed.

End RoundingOrder.

(** ** More on the suggested limit *)

Lemma covering_period_is_selected (st : store) (today : date) (q : pay_period) :
  In q (tbl_pay_periods st) -> covers today q = true ->
  exists p, current_period st today = Some p.
Proof.
  intros Hin Hc; unfold current_period.
  destruct (latest_start _) as [p |] eqn:E; [exists p; reflexivity |].
  apply latest_start_none in E.
  assert (In q (filter (covers today) (tbl_pay_periods st))) as Hq
    by (apply filter_In; auto).
  rewrite E in Hq; contradiction.
Qed.

(** X1.  On valid dates a selected pay period always has at least one day
    left, today included, so the branch that returns 0 for
    [days_remaining <= 0] is never taken once a period is selected. *)
Theorem selected_period_has_days_left (st : store) (today : date) (p : pay_period)
    (Hperiod : current_period st today = Some p)
    (Htoday : Date.valid today = true)
    (Hend : Date.valid (pp_end_date p) = true) :
  1 <= Date.sub_days (pp_end_date p) today + 1
  /\ (Date.sub_days (pp_end_date p) today + 1 <=? 0) = false.
Proof.
  pose proof (current_period_days_remaining st today p Hperiod Htoday Hend) as H.
  split; [lia | apply Z.leb_gt; lia].
Qed.

Lemma selected_period_has_days_left_witness :
  current_period june_store (ymd 2024 6 15) = Some june_period
  /\ Date.valid (ymd 2024 6 15) = true
  /\ Date.valid (pp_end_date june_period) = true
  /\ 1 <= Date.sub_days (pp_end_date june_period) (ymd 2024 6 15) + 1.
Proof.
  split; [reflexivity |]. split; [reflexivity |]. split; [reflexivity |].
  exact (proj1 (selected_period_has_days_left june_store (ymd 2024 6 15) june_period
                  eq_refl eq_refl eq_refl)).
Defined.

(** X2.  The pay period [calculate_daily_limit] works with is a row that
    covers today and no row covering today starts later; a period is
    selected as soon as some row covers today. *)
Theorem current_period_is_latest_covering (st : store) (today : date) :
  (forall p, current_period st today = Some p ->
     In p (tbl_pay_periods st) /\ covers today p = true
     /\ forall q, In q (tbl_pay_periods st) -> covers today q = true ->
                  Date.leb (pp_start_date q) (pp_start_date p) = true)
  /\ (forall q, In q (tbl_pay_periods st) -> covers today q = true ->
        exists p, current_period st today = Some p).
Proof.
  split.
  - intros p H.
    destruct (current_period_covers st today p H) as [Hin Hc].
    split; [exact Hin |]; split; [exact Hc |].
    apply current_period_latest, H.
  - apply covering_period_is_selected.
Qed.

Lemma current_period_is_latest_covering_witness :
  let st := pay_periods june_store 900 (ymd 2024 6 3) (ymd 2024 6 30) in
  current_period st (ymd 2024 6 5)
  = Some (mk_pay_period 2 900 (ymd 2024 6 3) (ymd 2024 6 30))
  /\ Date.leb (pp_start_date june_period) (ymd 2024 6 3) = true.
Proof.
  intros st; split; [reflexivity |].
  destruct (proj1 (current_period_is_latest_covering st (ymd 2024 6 5))
              (mk_pay_period 2 900 (ymd 2024 6 3) (ymd 2024 6 30)) eq_refl)
    as (_ & _ & Hmax).
  apply (Hmax june_period); [left; reflexivity | reflexivity].
Defined.

(** X3.  With no transactions, no recurring expenses and no savings goals
    the suggested limit is the period's amount divided by the days left,
    floored at 0 and rounded to cents. *)
Theorem limit_of_bare_period (st : store) (today : date) (p : pay_period)
    (Hperiod : current_period st today = Some p)
    (Hdays : 0 < Date.sub_days (pp_end_date p) today + 1)
    (Htx : tbl_transactions st = [])
    (Hre : tbl_recurring_expenses st = [])
    (Hsg : tbl_savings_goals st = []) :
  calculate_daily_limit st today
  = Py.round2 (Py.max0 (pp_amount p / inject_Z (Date.sub_days (pp_end_date p) today + 1))).
Proof.
  rewrite (calculate_daily_limit_unfold st today p Hperiod Hdays).
  unfold total_spent, upcoming_bills, planned_savings; rewrite Htx, Hre, Hsg; simpl.
  apply round2_comp, max0_comp.
  unfold sql_sum; simpl.
  apply Qmult_comp; [ring | reflexivity].
Qed.

Lemma limit_of_bare_period_witness :
  current_period half_cent_store (ymd 2024 6 11) = Some (mk_pay_period 1 (100025 # 100) (ymd 2024 6 1) (ymd 2024 6 15))
  /\ calculate_daily_limit half_cent_store (ymd 2024 6 11) = (20005 # 100)%Q.
Proof.
  split; [reflexivity |].
  rewrite (limit_of_bare_period half_cent_store (ymd 2024 6 11)
             (mk_pay_period 1 (100025 # 100) (ymd 2024 6 1) (ymd 2024 6 15))
             eq_refl eq_refl eq_refl eq_refl eq_refl).
  reflexivity.
Defined.

(** X4.  The suggested limit does not hand out more than there is: when
    nothing is available it is 0, and otherwise the limit times the days
    left exceeds what is available by at most half a cent per day. *)
Theorem limit_stays_within_available (st : store) (today : date) (p : pay_period)
    (Hperiod : current_period st today = Some p)
    (Hdays : 0 < Date.sub_days (pp_end_date p) today + 1) :
  let days_remaining := Date.sub_days (pp_end_date p) today + 1 in
  let available :=
    (pp_amount p - total_spent st (pp_start_date p) today
     - upcoming_bills st today (pp_end_date p) - planned_savings st)%Q in
  (available <= 0 -> calculate_daily_limit st today == 0)%Q
  /\ (0 <= available ->
      calculate_daily_limit st today * inject_Z days_remaining
      <= available + inject_Z days_remaining * (1 # 200))%Q.
Proof.
  intros days_remaining available.
  rewrite (calculate_daily_limit_unfold st today p Hperiod Hdays).
  fold days_remaining; fold available.
  assert (0 < inject_Z days_remaining)%Q as Hd
    by (change 0%Q with (inject_Z 0); rewrite <- Zlt_Qlt; exact Hdays).
  split.
  - intros Hneg.
    assert (Py.max0 (available / inject_Z days_remaining) == 0)%Q as E.
    { rewrite max0_is_Qmax; apply Q.max_l.
      apply Qle_shift_div_r; [exact Hd | lra]. }
    rewrite (round2_comp _ _ E); reflexivity.
  - intros Hpos.
    set (v := (available / inject_Z days_remaining)%Q).
    assert (0 <= v)%Q as Hv by (apply Qle_shift_div_l; [exact Hd | lra]).
    assert (Py.max0 v == v)%Q as E by (rewrite max0_is_Qmax; apply Q.max_r, Hv).
    pose proof (round2_near (Py.max0 v)) as Hnear.
    apply Qabs_Qle_condition in Hnear; destruct Hnear as [_ Hup].
    assert (Py.round2 (Py.max0 v) <= v + (1 # 200))%Q as Hle by (rewrite <- E at 2; lra).
    assert (v * inject_Z days_remaining == available)%Q as Hva
      by (unfold v; field; intros Hz; rewrite Hz in Hd; discriminate).
    rewrite <- Hva.
    setoid_replace (v * inject_Z days_remaining + inject_Z days_remaining * (1 # 200))%Q
      with ((v + (1 # 200)) * inject_Z days_remaining)%Q by ring.
    apply Qmult_le_compat_r; [exact Hle | apply Qlt_le_weak, Hd].
Qed.

Lemma limit_stays_within_available_witness :
  current_period june_store (ymd 2024 6 5) = Some june_period
  /\ (calculate_daily_limit june_store (ymd 2024 6 5) * inject_Z 11
      <= 1350 + inject_Z 11 * (1 # 200))%Q.
Proof.
  split; [reflexivity |].
  apply (proj2 (limit_stays_within_available june_store (ymd 2024 6 5) june_period
                  eq_refl eq_refl)).
  discriminate.
Defined.

(** ** How the writes move the suggested limit *)

Lemma add_transaction_pay_periods (st : store) (today : date) (form : transaction_form) :
  tbl_pay_periods (add_transaction st today form) = tbl_pay_periods st.
Proof.
  unfold add_transaction.
  destruct (_ && _); [simpl; destruct (budget_exists _ _) |];
    (destruct (String.eqb _ "savings_contribution");
     [destruct (form_goal_id form) |]); reflexivity.
Qed.

Lemma add_transaction_recurring_expenses (st : store) (today : date)
      (form : transaction_form) :
  tbl_recurring_expenses (add_transaction st today form) = tbl_recurring_expenses st.
Proof.
  unfold add_transaction.
  destruct (_ && _); [simpl; destruct (budget_exists _ _) |];
    (destruct (String.eqb _ "savings_contribution");
     [destruct (form_goal_id form) |]); reflexivity.
Qed.

Lemma add_to_goal_monthly_contribution (goal_id : Z) (amount : Q) (gs : list savings_goal) :
  map sg_monthly_contribution (map (add_to_goal goal_id amount) gs)
  = map sg_monthly_contribution gs.
Proof.
  rewrite map_map; apply map_ext; intros g.
  unfold add_to_goal; destruct (sg_id g =? goal_id); reflexivity.
Qed.

Lemma add_transaction_planned_savings (st : store) (today : date) (form : transaction_form) :
  planned_savings (add_transaction st today form) = planned_savings st.
Proof.
  unfold planned_savings; rewrite add_transaction_savings_goals.
  destruct (String.eqb _ _); [destruct (form_goal_id form) |]; try reflexivity.
  rewrite add_to_goal_monthly_contribution; reflexivity.
Qed.

Lemma add_transaction_total_spent (st : store) (today : date) (form : transaction_form)
      (lo hi : date) :
  total_spent (add_transaction st today form) lo hi
  = if spent_between lo hi (inserted_transaction st today form)
    then (total_spent st lo hi + form_amount form)%Q
    else total_spent st lo hi.
Proof.
  unfold total_spent; rewrite add_transaction_transactions, filter_app; simpl.
  destruct (spent_between lo hi _); simpl.
  - rewrite map_app; apply sql_sum_snoc.
  - rewrite app_nil_r; reflexivity.
Qed.

(** More spent, more due or more set aside never gives a higher limit. *)
Lemma limit_antitone (st st' : store) (day : date) :
  tbl_pay_periods st' = tbl_pay_periods st ->
  (forall lo hi, (total_spent st lo hi <= total_spent st' lo hi)%Q) ->
  (forall lo hi, (upcoming_bills st lo hi <= upcoming_bills st' lo hi)%Q) ->
  (planned_savings st <= planned_savings st')%Q ->
  (calculate_daily_limit st' day <= calculate_daily_limit st day)%Q.
Proof.
  intros Hpp Hts Hub Hps.
  unfold calculate_daily_limit, current_period; rewrite Hpp.
  destruct (latest_start _) as [p |]; [| apply Qle_refl].
  apply round2_mono.
  destruct (Z.leb_spec (Date.sub_days (pp_end_date p) day + 1) 0) as [_ | Hd];
    [apply Qle_refl |].
  apply max0_mono, div_days_mono; [exact Hd |].
  specialize (Hts (pp_start_date p) day); specialize (Hub day (pp_end_date p)).
  lra.
Qed.

(** X5.  Recording a transaction with a non-negative amount never raises
    the suggested limit of any day, whatever its type and its date. *)
Theorem transaction_never_raises_limit (st : store) (today : date)
    (form : transaction_form) (day : date)
    (Hamount : (0 <= form_amount form)%Q) :
  (calculate_daily_limit (add_transaction st today form) day
   <= calculate_daily_limit st day)%Q.
Proof.
  apply limit_antitone.
  - apply add_transaction_pay_periods.
  - intros lo hi; rewrite add_transaction_total_spent.
    destruct (spent_between lo hi _); lra.
  - intros lo hi; unfold upcoming_bills.
    rewrite add_transaction_recurring_expenses; apply Qle_refl.
  - rewrite add_transaction_planned_savings; apply Qle_refl.
Qed.

Lemma transaction_never_raises_limit_witness :
  let form := mk_transaction_form 110 "food" "party" None None None in
  (0 <= form_amount form)%Q
  /\ calculate_daily_limit (add_transaction june_store (ymd 2024 6 5) form) (ymd 2024 6 5)
     = (11273 # 100)%Q
  /\ (calculate_daily_limit (add_transaction june_store (ymd 2024 6 5) form) (ymd 2024 6 5)
      <= calculate_daily_limit june_store (ymd 2024 6 5))%Q.
Proof.
  intros form.
  split; [discriminate |]. split; [reflexivity |].
  apply (transaction_never_raises_limit june_store (ymd 2024 6 5) form (ymd 2024 6 5)).
  discriminate.
Defined.

(** X6.  A new savings goal with a non-negative monthly contribution never
    raises the suggested limit of any day; the goal starts with nothing
    saved. *)
Theorem savings_goal_never_raises_limit (st : store) (name : string)
    (target_amount : Q) (target_date : option date) (monthly_contribution : Q)
    (day : date)
    (Hcontribution : (0 <= monthly_contribution)%Q) :
  (calculate_daily_limit (savings_goals st name target_amount target_date
                            monthly_contribution) day
   <= calculate_daily_limit st day)%Q
  /\ exists id,
       tbl_savings_goals (savings_goals st name target_amount target_date
                            monthly_contribution)
       = tbl_savings_goals st
         ++ [mk_savings_goal id name target_amount 0 target_date monthly_contribution].
Proof.
  split.
  - apply limit_antitone; try reflexivity; try (intros; apply Qle_refl).
    unfold planned_savings, savings_goals; simpl.
    rewrite map_app; simpl; rewrite sql_sum_snoc; lra.
  - eexists; reflexivity.
Qed.

Lemma savings_goal_never_raises_limit_witness :
  (0 <= 110)%Q
  /\ calculate_daily_limit (savings_goals june_store "bike" 800 None 110) (ymd 2024 6 5)
     = (11273 # 100)%Q
  /\ (calculate_daily_limit (savings_goals june_store "bike" 800 None 110) (ymd 2024 6 5)
      <= calculate_daily_limit june_store (ymd 2024 6 5))%Q.
Proof.
  split; [discriminate |]. split; [reflexivity |].
  apply (savings_goal_never_raises_limit june_store "bike" 800 None 110 (ymd 2024 6 5)).
  discriminate.
Defined.

(** X7.  A new recurring expense with a non-negative amount never raises
    the suggested limit of a day, and leaves it as it was when its due
    date is before that day or after the end of the day's pay period. *)
Theorem recurring_expense_never_raises_limit (st : store) (name : string) (amount : Q)
    (frequency : string) (next_due : date) (category : string) (day : date)
    (Hamount : (0 <= amount)%Q) :
  let st' := recurring_expenses st name amount frequency next_due category in
  (calculate_daily_limit st' day <= calculate_daily_limit st day)%Q
  /\ (forall p, current_period st day = Some p ->
        due_between day (pp_end_date p)
          (mk_recurring_expense (next_id (map re_id (tbl_recurring_expenses st)))
             name amount frequency next_due category) = false ->
        calculate_daily_limit st' day = calculate_daily_limit st day).
Proof.
  intros st'.
  assert (forall lo hi,
            upcoming_bills st' lo hi
            = if due_between lo hi
                   (mk_recurring_expense (next_id (map re_id (tbl_recurring_expenses st)))
                      name amount frequency next_due category)
              then (upcoming_bills st lo hi + amount)%Q
              else upcoming_bills st lo hi) as Hbills.
  { intros lo hi; unfold upcoming_bills, st', recurring_expenses; simpl.
    rewrite filter_app; simpl.
    destruct (due_between lo hi _); simpl.
    - rewrite map_app; apply sql_sum_snoc.
    - rewrite app_nil_r; reflexivity. }
  split.
  - apply limit_antitone; try reflexivity; try (intros; apply Qle_refl).
    intros lo hi; rewrite Hbills; destruct (due_between lo hi _); lra.
  - intros p Hp Hout.
    unfold calculate_daily_limit.
    change (current_period st' day) with (current_period st day); rewrite Hp.
    rewrite Hbills, Hout; reflexivity.
Qed.

Lemma recurring_expense_never_raises_limit_witness :
  (0 <= 110)%Q
  /\ calculate_daily_limit
       (recurring_expenses june_store "water" 110 "monthly" (ymd 2024 6 12) "home")
       (ymd 2024 6 5) = (11273 # 100)%Q
  /\ calculate_daily_limit
       (recurring_expenses june_store "water" 110 "monthly" (ymd 2024 6 16) "home")
       (ymd 2024 6 5) = calculate_daily_limit june_store (ymd 2024 6 5).
Proof.
  split; [discriminate |]. split; [reflexivity |].
  apply (proj2 (recurring_expense_never_raises_limit june_store "water" 110 "monthly"
                  (ymd 2024 6 16) "home" (ymd 2024 6 5) ltac:(discriminate))
           june_period); reflexivity.
Defined.

(** X8.  Confirming a limit and recording a transaction that is not an
    expense leave the suggested limit of every day as it was: the limit
    reads neither the daily budgets nor the saved amount of a goal. *)
Theorem limit_ignores_confirmations_and_contributions (st : store) (today : date)
    (r : request) (day : date)
    (Hkind : match r with
             | PostConfirmDailyLimit _ => True
             | PostAddTransaction form =>
                 String.eqb (get_or (form_type form) "expense") "expense" = false
             | _ => False
             end) :
  calculate_daily_limit (serve st today r) day = calculate_daily_limit st day.
Proof.
  destruct r as [data | form | | |]; try contradiction.
  - unfold serve, confirm_daily_limit.
    destruct (budget_exists today (tbl_daily_budgets st)); [reflexivity |].
    destruct (get_or (dict_get "limit" data) (JNum 0)); reflexivity.
  - simpl serve.
    unfold calculate_daily_limit, current_period.
    rewrite add_transaction_pay_periods.
    destruct (latest_start _) as [p |]; [| reflexivity].
    rewrite add_transaction_planned_savings, add_transaction_total_spent.
    unfold upcoming_bills; rewrite add_transaction_recurring_expenses.
    unfold spent_between, is_expense, inserted_transaction; simpl tx_type.
    rewrite Hkind, andb_false_r; reflexivity.
Qed.

Lemma limit_ignores_confirmations_and_contributions_witness :
  let r := PostAddTransaction
             (mk_transaction_form 500 "goal" "car" None (Some "savings_contribution") (Some 1)) in
  calculate_daily_limit (serve june_store (ymd 2024 6 5) r) (ymd 2024 6 5) = (12273 # 100)%Q.
Proof.
  intros r.
  rewrite (limit_ignores_confirmations_and_contributions june_store (ymd 2024 6 5) r
             (ymd 2024 6 5) eq_refl).
  reflexivity.
Defined.

(** X9.  A new pay period that does not cover a day leaves that day's
    selected period and suggested limit as they were; one that covers the
    day and starts later than every other period covering it becomes the
    selected period. *)
Theorem new_pay_period_selection (st : store) (amount : Q) (start_date end_date : date)
    (day : date) :
  let st' := pay_periods st amount start_date end_date in
  let added :=
    mk_pay_period (next_id (map pp_id (tbl_pay_periods st))) amount start_date end_date in
  (covers day added = false ->
     current_period st' day = current_period st day
     /\ calculate_daily_limit st' day = calculate_daily_limit st day)
  /\ (covers day added = true ->
      (forall q, In q (tbl_pay_periods st) -> covers day q = true ->
                 Date.leb start_date (pp_start_date q) = false) ->
      current_period st' day = Some added).
Proof.
  intros st' added; split.
  - intros Hout.
    assert (current_period st' day = current_period st day) as Hcur.
    { unfold current_period, st', pay_periods; simpl.
      rewrite filter_app; simpl; fold added; rewrite Hout, app_nil_r; reflexivity. }
    split; [exact Hcur |].
    unfold calculate_daily_limit; rewrite Hcur; reflexivity.
  - intros Hin Hlater.
    assert (In added (tbl_pay_periods st')) as Hadded
      by (unfold st', pay_periods; simpl; apply in_app_iff; right; left; reflexivity).
    destruct (covering_period_is_selected st' day added Hadded Hin) as [p Hp].
    rewrite Hp; f_equal.
    destruct (current_period_covers st' day p Hp) as [Hpin Hpc].
    unfold st', pay_periods in Hpin; simpl in Hpin.
    apply in_app_iff in Hpin; destruct Hpin as [Hold | [<- | []]]; [| reflexivity].
    pose proof (current_period_latest st' day p Hp added Hadded Hin) as Hmax.
    simpl in Hmax; rewrite (Hlater p Hold Hpc) in Hmax; discriminate.
Qed.

Lemma new_pay_period_selection_witness :
  let st' := pay_periods june_store 900 (ymd 2024 6 3) (ymd 2024 6 30) in
  covers (ymd 2024 6 5) (mk_pay_period 2 900 (ymd 2024 6 3) (ymd 2024 6 30)) = true
  /\ current_period st' (ymd 2024 6 5)
     = Some (mk_pay_period 2 900 (ymd 2024 6 3) (ymd 2024 6 30))
  /\ current_period st' (ymd 2024 6 2) = Some june_period.
Proof.
  intros st'; split; [reflexivity |]. split.
  - apply (proj2 (new_pay_period_selection june_store 900 (ymd 2024 6 3) (ymd 2024 6 30)
                    (ymd 2024 6 5))); [reflexivity |].
    intros q [<- | []] _; reflexivity.
  - apply (proj1 (new_pay_period_selection june_store 900 (ymd 2024 6 3) (ymd 2024 6 30)
                    (ymd 2024 6 2))); reflexivity.
Defined.

(** ** What every history of requests keeps *)

Lemma serve_daily_budgets (st : store) (today : date) (r : request) :
  exists (f : daily_budget -> daily_budget) (added : list daily_budget),
    tbl_daily_budgets (serve st today r) = map f (tbl_daily_budgets st) ++ added
    /\ (forall b, db_date (f b) = db_date b /\ db_id (f b) = db_id b
                  /\ db_allocated_limit (f b) = db_allocated_limit b
                  /\ (db_date b <> today -> f b = b))
    /\ (added = []
        \/ (budget_exists today (tbl_daily_budgets st) = false
            /\ exists b, added = [b] /\ db_date b = today
                         /\ db_id b = next_id (map db_id (tbl_daily_budgets st)))).
Proof.
  assert (forall bs : list daily_budget, bs = map (fun b => b) bs ++ []) as Hid
    by (intros bs; rewrite map_id, app_nil_r; reflexivity).
  assert (forall b : daily_budget,
             db_date b = db_date b /\ db_id b = db_id b
             /\ db_allocated_limit b = db_allocated_limit b
             /\ (db_date b <> today -> b = b)) as Hidf by (intros b; auto).
  destruct r as [data | form | n t d m | n a f d c | a s e];
    try (exists (fun b => b), []; split; [apply Hid | split; [exact Hidf | left; reflexivity]]).
  - unfold serve, confirm_daily_limit.
    destruct (budget_exists today (tbl_daily_budgets st)) eqn:Ex.
    + eexists (set_confirmed_limit today _), []; simpl; rewrite app_nil_r.
      split; [reflexivity |]; split; [| left; reflexivity].
      intros b; unfold set_confirmed_limit.
      destruct (Date.eqb (db_date b) today) eqn:E; simpl; repeat split; auto.
      apply date_eqb_eq in E; intros N; contradiction.
    + destruct (get_or (dict_get "limit" data) (JNum 0)) as [| q].
      * exists (fun b => b), []; split; [apply Hid | split; [exact Hidf | left; reflexivity]].
      * eexists (fun b => b), [_]; simpl; rewrite map_id.
        split; [reflexivity |]; split; [exact Hidf |].
        right; split; [reflexivity |]; eexists; split; [reflexivity |]; split; reflexivity.
  - simpl serve; rewrite add_transaction_daily_budgets.
    destruct (String.eqb _ _ && Date.eqb _ _) eqn:Ec;
      [| exists (fun b => b), []; split; [apply Hid | split; [exact Hidf | left; reflexivity]]].
    apply andb_true_iff in Ec; destruct Ec as [_ Ed]; apply date_eqb_eq in Ed; rewrite Ed.
    assert (forall v b,
               db_date (set_actual_spent today v b) = db_date b
               /\ db_id (set_actual_spent today v b) = db_id b
               /\ db_allocated_limit (set_actual_spent today v b) = db_allocated_limit b
               /\ (db_date b <> today -> set_actual_spent today v b = b)) as Hf.
    { intros v b; unfold set_actual_spent.
      destruct (Date.eqb (db_date b) today) eqn:E; simpl; repeat split; auto.
      apply date_eqb_eq in E; intros N; contradiction. }
    destruct (budget_exists today (tbl_daily_budgets st)) eqn:Ex.
    + eexists (set_actual_spent today _), []; rewrite app_nil_r.
      split; [reflexivity |]; split; [apply Hf | left; reflexivity].
    + eexists (set_actual_spent today _), [_]; rewrite map_app.
      split; [reflexivity |]; split; [apply Hf |].
      right; split; [reflexivity |]; eexists; split; [reflexivity |].
      split; [rewrite (proj1 (Hf _ _)) | rewrite (proj1 (proj2 (Hf _ _)))]; reflexivity.
Qed.

Lemma budget_dates_after_map (f : daily_budget -> daily_budget) (bs : list daily_budget) :
  (forall b, db_date (f b) = db_date b) -> map db_date (map f bs) = map db_date bs.
Proof. intros H; rewrite map_map; apply map_ext, H. Qed.

Lemma budget_exists_dates (d : date) (bs : list daily_budget) :
  budget_exists d bs = false -> ~ In d (map db_date bs).
Proof.
  intros Hex Hin; apply in_map_iff in Hin; destruct Hin as (b & Hd & Hin).
  assert (budget_exists d bs = true) by (apply budget_exists_in; exists b; auto).
  congruence.
Qed.

Lemma NoDup_snoc {A : Type} (l : list A) (a : A) : NoDup l -> ~ In a l -> NoDup (l ++ [a]).
Proof.
  intros Hl Ha; induction Hl as [| x l Hx Hl IH]; simpl.
  - constructor; [intros [] | constructor].
  - constructor.
    + intros Hin; apply in_app_iff in Hin; destruct Hin as [Hin | [<- | []]].
      * contradiction.
      * apply Ha; left; reflexivity.
    + apply IH; intros Hin; apply Ha; right; exact Hin.
Qed.

Lemma serve_keeps_one_budget_per_date (st : store) (today : date) (r : request) :
  NoDup (map db_date (tbl_daily_budgets st)) ->
  NoDup (map db_date (tbl_daily_budgets (serve st today r))).
Proof.
  intros Hnd.
  destruct (serve_daily_budgets st today r) as (f & added & -> & Hf & Hadded).
  rewrite map_app, budget_dates_after_map by (intros b; apply Hf).
  destruct Hadded as [-> | (Hex & b & -> & Hd & _)]; simpl.
  - rewrite app_nil_r; exact Hnd.
  - rewrite Hd; apply NoDup_snoc; [exact Hnd | apply budget_exists_dates, Hex].
Qed.

(** X10.  Whatever requests are served, on whatever days, the store never
    holds two [DailyBudget] rows for the same date: the [UNIQUE] constraint
    on [date] is never put to the test. *)
Theorem one_budget_per_date (history : list (date * request)) :
  NoDup (map db_date (tbl_daily_budgets (run init_db history))).
Proof.
  assert (forall st, NoDup (map db_date (tbl_daily_budgets st)) ->
                     NoDup (map db_date (tbl_daily_budgets (run st history)))) as H.
  { induction history as [| [today r] rest IH]; simpl; intros st Hst; [exact Hst |].
    apply IH, serve_keeps_one_budget_per_date, Hst. }
  apply H; constructor.
Qed.

Lemma add_transaction_goal_ids (st : store) (today : date) (form : transaction_form) :
  map sg_id (tbl_savings_goals (add_transaction st today form))
  = map sg_id (tbl_savings_goals st).
Proof.
  rewrite add_transaction_savings_goals.
  destruct (String.eqb _ _); [destruct (form_goal_id form) as [goal_id |] |];
    try reflexivity.
  rewrite map_map; apply map_ext; intros g.
  unfold add_to_goal; destruct (sg_id g =? goal_id); reflexivity.
Qed.

Lemma serve_only_appends (st : store) (today : date) (r : request) :
  (exists ts, tbl_transactions (serve st today r) = tbl_transactions st ++ ts)
  /\ (exists ps, tbl_pay_periods (serve st today r) = tbl_pay_periods st ++ ps)
  /\ (exists rs, tbl_recurring_expenses (serve st today r)
                 = tbl_recurring_expenses st ++ rs)
  /\ (exists gs, map sg_id (tbl_savings_goals (serve st today r))
                 = map sg_id (tbl_savings_goals st) ++ gs)
  /\ (exists ds, map db_date (tbl_daily_budgets (serve st today r))
                 = map db_date (tbl_daily_budgets st) ++ ds).
Proof.
  assert (exists ds, map db_date (tbl_daily_budgets (serve st today r))
                     = map db_date (tbl_daily_budgets st) ++ ds) as Hbudgets.
  { destruct (serve_daily_budgets st today r) as (f & added & -> & Hf & _).
    exists (map db_date added).
    rewrite map_app, budget_dates_after_map by (intros b; apply Hf); reflexivity. }
  repeat split; try exact Hbudgets; clear Hbudgets;
    destruct r as [data | form | n t d m | n a f d c | a s e]; simpl serve;
    try (exists []; rewrite app_nil_r; reflexivity);
    try (eexists; reflexivity).
  - unfold confirm_daily_limit.
    destruct (budget_exists _ _); [| destruct (get_or _ _)];
      exists []; rewrite app_nil_r; reflexivity.
  - rewrite add_transaction_transactions; eexists; reflexivity.
  - unfold confirm_daily_limit.
    destruct (budget_exists _ _); [| destruct (get_or _ _)];
      exists []; rewrite app_nil_r; reflexivity.
  - rewrite add_transaction_pay_periods; exists []; rewrite app_nil_r; reflexivity.
  - unfold confirm_daily_limit.
    destruct (budget_exists _ _); [| destruct (get_or _ _)];
      exists []; rewrite app_nil_r; reflexivity.
  - rewrite add_transaction_recurring_expenses; exists []; rewrite app_nil_r; reflexivity.
  - unfold confirm_daily_limit.
    destruct (budget_exists _ _); [| destruct (get_or _ _)];
      exists []; rewrite app_nil_r; reflexivity.
  - rewrite add_transaction_goal_ids; exists []; rewrite app_nil_r; reflexivity.
  - unfold savings_goals; simpl; rewrite map_app; eexists; reflexivity.
Qed.

(** X11.  No request deletes or rewrites what was recorded: after any
    history the transaction log, the pay periods and the recurring expenses
    are the old tables with rows appended, and the savings goals and the
    daily budgets still hold every old row under the same id and date. *)
Theorem history_only_appends (st : store) (history : list (date * request)) :
  (exists ts, tbl_transactions (run st history) = tbl_transactions st ++ ts)
  /\ (exists ps, tbl_pay_periods (run st history) = tbl_pay_periods st ++ ps)
  /\ (exists rs, tbl_recurring_expenses (run st history)
                 = tbl_recurring_expenses st ++ rs)
  /\ (exists gs, map sg_id (tbl_savings_goals (run st history))
                 = map sg_id (tbl_savings_goals st) ++ gs)
  /\ (exists ds, map db_date (tbl_daily_budgets (run st history))
                 = map db_date (tbl_daily_budgets st) ++ ds).
Proof.
  revert st; induction history as [| [today r] rest IH]; simpl; intros st.
  - repeat split; exists []; rewrite app_nil_r; reflexivity.
  - destruct (IH (serve st today r))
      as ((ts & Ht) & (ps & Hp) & (rs & Hr) & (gs & Hg) & (ds & Hd)).
    destruct (serve_only_appends st today r)
      as ((ts0 & Ht0) & (ps0 & Hp0) & (rs0 & Hr0) & (gs0 & Hg0) & (ds0 & Hd0)).
    rewrite Ht, Hp, Hr, Hg, Hd, Ht0, Hp0, Hr0, Hg0, Hd0, <- !app_assoc.
    repeat split; eexists; reflexivity.
Qed.

(** ** Row ids *)

Lemma fold_left_max_bounds (ids : list Z) (a : Z) :
  a <= fold_left Z.max ids a /\ forall x, In x ids -> x <= fold_left Z.max ids a.
Proof.
  revert a; induction ids as [| i ids IH]; simpl; intros a.
  - split; [lia | intros x []].
  - destruct (IH (Z.max a i)) as [Ha Hin].
    split; [lia |].
    intros x [<- | Hx]; [lia | apply Hin, Hx].
Qed.

Lemma next_id_fresh (ids : list Z) : ~ In (next_id ids) ids.
Proof.
  intros Hin; unfold next_id in Hin.
  apply (proj2 (fold_left_max_bounds ids 0)) in Hin; lia.
Qed.

Lemma serve_keeps_ids_distinct (st : store) (today : date) (r : request) :
  NoDup (map sg_id (tbl_savings_goals st))
  /\ NoDup (map db_id (tbl_daily_budgets st))
  /\ NoDup (map tx_id (tbl_transactions st)) ->
  NoDup (map sg_id (tbl_savings_goals (serve st today r)))
  /\ NoDup (map db_id (tbl_daily_budgets (serve st today r)))
  /\ NoDup (map tx_id (tbl_transactions (serve st today r))).
Proof.
  intros (Hg & Hb & Ht).
  split; [| split].
  - destruct r as [data | form | n t d m | n a f d c | a s e]; simpl serve;
      try exact Hg.
    + unfold confirm_daily_limit.
      destruct (budget_exists _ _); [| destruct (get_or _ _)]; exact Hg.
    + rewrite add_transaction_goal_ids; exact Hg.
    + unfold savings_goals; simpl; rewrite map_app; simpl.
      apply NoDup_snoc; [exact Hg | apply next_id_fresh].
  - destruct (serve_daily_budgets st today r) as (f & added & -> & Hf & Hadded).
    rewrite map_app, map_map.
    rewrite (map_ext (fun b => db_id (f b)) db_id) by (intros b; apply Hf).
    destruct Hadded as [-> | (_ & b & -> & _ & Hid)]; simpl.
    + rewrite app_nil_r; exact Hb.
    + rewrite Hid; apply NoDup_snoc; [exact Hb | apply next_id_fresh].
  - destruct r as [data | form | n t d m | n a f d c | a s e]; simpl serve;
      try exact Ht.
    + unfold confirm_daily_limit.
      destruct (budget_exists _ _); [| destruct (get_or _ _)]; exact Ht.
    + rewrite add_transaction_transactions, map_app; simpl.
      apply NoDup_snoc; [exact Ht | apply next_id_fresh].
Qed.

(** X12.  After any history the savings goals carry pairwise distinct ids,
    and so do the daily budgets and the transactions: a goal id on a
    contribution names at most one goal. *)
Theorem ids_are_distinct (history : list (date * request)) :
  NoDup (map sg_id (tbl_savings_goals (run init_db history)))
  /\ NoDup (map db_id (tbl_daily_budgets (run init_db history)))
  /\ NoDup (map tx_id (tbl_transactions (run init_db history))).
Proof.
  assert (forall st,
            NoDup (map sg_id (tbl_savings_goals st))
            /\ NoDup (map db_id (tbl_daily_budgets st))
            /\ NoDup (map tx_id (tbl_transactions st)) ->
            NoDup (map sg_id (tbl_savings_goals (run st history)))
            /\ NoDup (map db_id (tbl_daily_budgets (run st history)))
            /\ NoDup (map tx_id (tbl_transactions (run st history)))) as H.
  { induction history as [| [today r] rest IH]; simpl; intros st Hst; [exact Hst |].
    apply IH, serve_keeps_ids_distinct, Hst. }
  apply H; repeat split; constructor.
Qed.

(** ** Confirming twice, and confirming around an expense *)

Lemma set_confirmed_limit_twice (d : date) (v : option Q) (b : daily_budget) :
  set_confirmed_limit d v (set_confirmed_limit d v b) = set_confirmed_limit d v b.
Proof.
  unfold set_confirmed_limit.
  destruct (Date.eqb (db_date b) d) eqn:E; simpl; rewrite E; reflexivity.
Qed.

Lemma set_confirmed_limit_absent (d : date) (v : option Q) (bs : list daily_budget) :
  budget_exists d bs = false -> map (set_confirmed_limit d v) bs = bs.
Proof.
  induction bs as [| b bs IH]; simpl; intros H; [reflexivity |].
  apply orb_false_iff in H; destruct H as [Hb Hbs].
  unfold set_confirmed_limit at 1; rewrite Hb, (IH Hbs); reflexivity.
Qed.

(** X13.  Confirming is idempotent: a request that was served leaves a
    store on which the same request, served again on the same day, changes
    nothing. *)
Theorem confirm_twice_is_confirm_once (st st' : store) (today : date)
    (data : json_object)
    (Hfirst : confirm_daily_limit st today data = Ok st') :
  confirm_daily_limit st' today data = Ok st'.
Proof.
  unfold confirm_daily_limit in *.
  destruct (budget_exists today (tbl_daily_budgets st)) eqn:Ex.
  - inversion Hfirst; subst st'; clear Hfirst; simpl.
    rewrite budget_exists_same_dates by apply set_confirmed_limit_date.
    rewrite Ex; unfold with_daily_budgets; simpl.
    rewrite map_map.
    rewrite (map_ext _ _ (set_confirmed_limit_twice today _)); reflexivity.
  - destruct (get_or (dict_get "limit" data) (JNum 0)) as [| q]; [discriminate |].
    inversion Hfirst; subst st'; clear Hfirst; simpl.
    rewrite budget_exists_app; simpl; rewrite date_eqb_refl, orb_true_r.
    unfold with_daily_budgets; simpl.
    rewrite map_app, (set_confirmed_limit_absent _ _ _ Ex); simpl.
    unfold set_confirmed_limit; simpl; rewrite date_eqb_refl; reflexivity.
Qed.

Lemma confirm_twice_is_confirm_once_witness :
  let data := [("limit", JNum 40)] in
  let st' := mk_store (tbl_pay_periods june_store) (tbl_savings_goals june_store)
               (tbl_recurring_expenses june_store) (tbl_transactions june_store)
               [mk_daily_budget 1 (ymd 2024 6 5) 40 (Some 40%Q) 0] in
  confirm_daily_limit june_store (ymd 2024 6 5) data = Ok st'
  /\ confirm_daily_limit st' (ymd 2024 6 5) data = Ok st'.
Proof.
  intros data st'; split; [reflexivity |].
  apply (confirm_twice_is_confirm_once june_store st' (ymd 2024 6 5) data); reflexivity.
Defined.

Lemma confirm_daily_limit_existing (st : store) (today : date) (data : json_object)
      (amount : Q) :
  dict_get "limit" data = Some (JNum amount) ->
  budget_exists today (tbl_daily_budgets st) = true ->
  confirm_daily_limit st today data
  = Ok (with_daily_budgets st
          (map (set_confirmed_limit today (Some amount)) (tbl_daily_budgets st))).
Proof.
  intros Hlimit Hex; unfold confirm_daily_limit; rewrite Hlimit, Hex; reflexivity.
Qed.

Lemma add_expense_today_budgets (st : store) (today : date) (form : transaction_form) :
  get_or (form_type form) "expense" = "expense" ->
  get_or (form_date form) today = today ->
  tbl_daily_budgets (add_transaction st today form)
  = map (set_actual_spent today
           (expenses_on (tbl_transactions st ++ [inserted_transaction st today form]) today))
        (if budget_exists today (tbl_daily_budgets st)
         then tbl_daily_budgets st
         else tbl_daily_budgets st ++
              [mk_daily_budget (next_id (map db_id (tbl_daily_budgets st)))
                 today (calculate_daily_limit st today) None 0]).
Proof.
  intros Htype Hdate.
  rewrite add_transaction_daily_budgets, Htype, Hdate, date_eqb_refl; reflexivity.
Qed.

Lemma add_expense_today_exists (st : store) (today : date) (form : transaction_form) :
  get_or (form_type form) "expense" = "expense" ->
  get_or (form_date form) today = today ->
  budget_exists today (tbl_daily_budgets (add_transaction st today form)) = true.
Proof.
  intros Htype Hdate.
  rewrite (add_expense_today_budgets st today form Htype Hdate).
  rewrite budget_exists_same_dates by apply set_actual_spent_date.
  destruct (budget_exists today (tbl_daily_budgets st)) eqn:E; [exact E |].
  rewrite budget_exists_app; simpl; rewrite date_eqb_refl; apply orb_true_r.
Qed.

(** X14.  A confirmation and an expense of the same day can be served in
    either order: both orders leave the same log, and a row for today whose
    confirmed limit is the confirmed amount and whose actual spending is
    the sum of today's expenses.  (Only the allocated limit of a row
    created on the way depends on the order.) *)
Theorem confirm_and_expense_in_either_order (st : store) (today : date)
    (data : json_object) (amount : Q) (form : transaction_form)
    (Hlimit : dict_get "limit" data = Some (JNum amount))
    (Htype : get_or (form_type form) "expense" = "expense")
    (Hdate : get_or (form_date form) today = today) :
  exists confirmed both_a both_b,
    confirm_daily_limit st today data = Ok confirmed
    /\ both_a = add_transaction confirmed today form
    /\ confirm_daily_limit (add_transaction st today form) today data = Ok both_b
    /\ forall s, s = both_a \/ s = both_b ->
         tbl_transactions s = tbl_transactions st ++ [inserted_transaction st today form]
         /\ budget_exists today (tbl_daily_budgets s) = true
         /\ forall b, In b (tbl_daily_budgets s) -> db_date b = today ->
              db_confirmed_limit b = Some amount
              /\ db_actual_spent b = expenses_on (tbl_transactions s) today.
Proof.
  destruct (confirm_daily_limit_number st today data amount)
    as (s1 & Hok1 & Hpost1); [rewrite Hlimit; reflexivity |].
  destruct Hpost1 as (_ & _ & _ & Htx1 & Hex1 & Hconf1 & _).
  pose proof (add_expense_today_exists st today form Htype Hdate) as Hex0.
  exists s1, (add_transaction s1 today form),
    (with_daily_budgets (add_transaction st today form)
       (map (set_confirmed_limit today (Some amount))
            (tbl_daily_budgets (add_transaction st today form)))).
  split; [exact Hok1 |]. split; [reflexivity |].
  split; [apply (confirm_daily_limit_existing _ _ _ _ Hlimit Hex0) |].
  assert (inserted_transaction s1 today form = inserted_transaction st today form) as Hsame
    by (unfold inserted_transaction; rewrite Htx1; reflexivity).
  intros s [-> | ->].
  - rewrite add_transaction_transactions, Htx1, Hsame.
    split; [reflexivity |].
    split; [apply add_expense_today_exists; assumption |].
    intros b Hin Hd.
    rewrite (add_expense_today_budgets s1 today form Htype Hdate), Hex1, Htx1, Hsame in Hin.
    apply in_map_iff in Hin; destruct Hin as (b0 & <- & Hin0).
    rewrite set_actual_spent_date in Hd.
    unfold set_actual_spent; rewrite Hd, date_eqb_refl; simpl.
    split; [apply (Hconf1 b0 Hin0 Hd) | reflexivity].
  - simpl tbl_transactions; rewrite add_transaction_transactions.
    split; [reflexivity |].
    simpl tbl_daily_budgets.
    split.
    { rewrite budget_exists_same_dates by apply set_confirmed_limit_date; exact Hex0. }
    intros b Hin Hd.
    apply in_map_iff in Hin; destruct Hin as (b0 & <- & Hin0).
    rewrite set_confirmed_limit_date in Hd.
    unfold set_confirmed_limit; rewrite Hd, date_eqb_refl; simpl.
    split; [reflexivity |].
    rewrite (add_expense_today_budgets st today form Htype Hdate) in Hin0.
    apply in_map_iff in Hin0; destruct Hin0 as (b1 & <- & _).
    rewrite set_actual_spent_date in Hd.
    unfold set_actual_spent; rewrite Hd, date_eqb_refl; reflexivity.
Qed.

Lemma confirm_and_expense_in_either_order_witness :
  let data := [("limit", JNum 40)] in
  let form := mk_transaction_form 25 "food" "lunch" None None None in
  dict_get "limit" data = Some (JNum 40)
  /\ get_or (form_type form) "expense" = "expense"
  /\ get_or (form_date form) (ymd 2024 6 5) = ymd 2024 6 5
  /\ exists both_b,
       confirm_daily_limit (add_transaction june_store (ymd 2024 6 5) form)
         (ymd 2024 6 5) data = Ok both_b
       /\ budget_exists (ymd 2024 6 5) (tbl_daily_budgets both_b) = true.
Proof.
  intros data form.
  split; [reflexivity |]. split; [reflexivity |]. split; [reflexivity |].
  destruct (confirm_and_expense_in_either_order june_store (ymd 2024 6 5) data 40 form
              eq_refl eq_refl eq_refl) as (s1 & a & b & _ & _ & Hb & Hboth).
  exists b; split; [exact Hb |].
  apply (Hboth b); right; reflexivity.
Defined.

(** ** The dashboard *)

Section Dashboard.

Local Open Scope Q_scope.

Lemma limit_or_zero (confirmed : option Q) (allocated : Q) :
  limit_or confirmed allocated == 0 <->
  allocated == 0 /\ (confirmed = None \/ exists q, confirmed = Some q /\ q == 0).
Proof.
  unfold limit_or; destruct confirmed as [q |].
  - destruct (Qeq_bool q 0) eqn:E.
    + apply Qeq_bool_iff in E.
      split; [intros H; split; [exact H | right; exists q; auto] | intros [H _]; exact H].
    + apply Qeq_bool_neq in E.
      split; [intros H; contradiction |].
      intros [_ [H | (q' & H & Hq)]]; [discriminate |].
      inversion H; subst; contradiction.
  - split; [intros H; split; [exact H | left; reflexivity] | intros [H _]; exact H].
Qed.

Lemma find_budget_some (d : date) (bs : list daily_budget) (b : daily_budget) :
  find_budget d bs = Some b -> In b bs /\ db_date b = d.
Proof.
  intros H; apply find_some in H; destruct H as [Hin Hd].
  split; [exact Hin | apply date_eqb_eq, Hd].
Qed.

Lemma find_budget_exists (d : date) (bs : list daily_budget) :
  budget_exists d bs = true -> exists b, find_budget d bs = Some b.
Proof.
  unfold budget_exists, find_budget; induction bs as [| b bs IH]; simpl; [discriminate |].
  destruct (Date.eqb (db_date b) d); simpl; [intros _; exists b; reflexivity | exact IH].
Qed.

Lemma find_budget_absent (d : date) (bs rest : list daily_budget) :
  budget_exists d bs = false -> find_budget d (bs ++ rest) = find_budget d rest.
Proof.
  unfold budget_exists, find_budget; induction bs as [| b bs IH]; simpl; [reflexivity |].
  destruct (Date.eqb (db_date b) d); simpl; [discriminate | exact IH].
Qed.

Lemma find_budget_map (d : date) (f : daily_budget -> daily_budget)
      (bs : list daily_budget) :
  (forall b, db_date (f b) = db_date b) ->
  find_budget d (map f bs) = option_map f (find_budget d bs).
Proof.
  intros Hf; unfold find_budget; induction bs as [| b bs IH]; simpl; [reflexivity |].
  rewrite Hf; destruct (Date.eqb (db_date b) d); [reflexivity | exact IH].
Qed.

Lemma dashboard_zero_division (st : store) (today : date) :
  dashboard st today = ZeroDivisionError <->
  exists b,
    find_budget today (tbl_daily_budgets st) = Some b
    /\ db_allocated_limit b == 0
    /\ (db_confirmed_limit b = None
        \/ exists q, db_confirmed_limit b = Some q /\ q == 0).
Proof.
  unfold dashboard.
  destruct (find_budget today (tbl_daily_budgets st)) as [b |].
  - destruct (Qeq_bool (limit_or (db_confirmed_limit b) (db_allocated_limit b)) 0) eqn:E.
    + apply Qeq_bool_iff, limit_or_zero in E.
      split; [intros _; exists b; split; [reflexivity | exact E] | reflexivity].
    + apply Qeq_bool_neq in E.
      split; [discriminate |].
      intros (b' & Hb & Hz); inversion Hb; subst b'.
      apply limit_or_zero in Hz; contradiction.
  - split; [discriminate | intros (b & Hb & _); discriminate].
Qed.

(** X15.  The dashboard fails with a division by zero exactly when today
    has a [DailyBudget] whose allocated limit is 0 and whose confirmed
    limit is null or 0; in every other store the page is rendered. *)
Theorem dashboard_fails_iff (st : store) (today : date) :
  dashboard st today = ZeroDivisionError <->
  exists b,
    find_budget today (tbl_daily_budgets st) = Some b
    /\ db_allocated_limit b == 0
    /\ (db_confirmed_limit b = None
        \/ exists q, db_confirmed_limit b = Some q /\ q == 0).
Proof. apply dashboard_zero_division. Qed.

(** X16.  When today has no [DailyBudget] and the suggested limit is 0
    (as it is when no pay period covers today), recording an expense for
    today creates a row with a zero limit, and the dashboard of that day
    fails with a division by zero. *)
Theorem first_expense_at_zero_limit_breaks_dashboard (st : store) (today : date)
    (form : transaction_form)
    (Htype : get_or (form_type form) "expense"%string = "expense"%string)
    (Hdate : get_or (form_date form) today = today)
    (Hnone : budget_exists today (tbl_daily_budgets st) = false)
    (Hzero : calculate_daily_limit st today == 0) :
  dashboard (add_transaction st today form) today = ZeroDivisionError.
Proof.
  apply dashboard_zero_division.
  rewrite (add_expense_today_budgets st today form Htype Hdate), Hnone.
  rewrite map_app, (set_actual_spent_absent _ _ _ Hnone).
  rewrite (find_budget_absent _ _ _ Hnone); simpl.
  unfold find_budget, set_actual_spent; simpl; rewrite date_eqb_refl; simpl.
  rewrite date_eqb_refl.
  eexists; split; [reflexivity |]; simpl.
  split; [exact Hzero | left; reflexivity].
Qed.

Lemma first_expense_at_zero_limit_breaks_dashboard_witness :
  let form := mk_transaction_form 25 "food" "lunch" None None None in
  (calculate_daily_limit init_db (ymd 2024 6 5) == 0)
  /\ dashboard init_db (ymd 2024 6 5)
     = Page (mk_dashboard_view None None 0%Z 0)
  /\ dashboard (add_transaction init_db (ymd 2024 6 5) form) (ymd 2024 6 5)
     = ZeroDivisionError.
Proof.
  intros form.
  split; [reflexivity |]. split; [reflexivity |].
  apply (first_expense_at_zero_limit_breaks_dashboard init_db (ymd 2024 6 5) form);
    reflexivity.
Defined.

(** X17.  A confirmation of 0 on a day that has a [DailyBudget] with an
    allocated limit other than 0 is stored, yet the dashboard does not use
    it: what remains is computed from the allocated limit. *)
Theorem zero_confirmation_falls_back (st : store) (today : date) (data : json_object)
    (z : Q) (b : daily_budget)
    (Hfind : find_budget today (tbl_daily_budgets st) = Some b)
    (Hlimit : dict_get "limit" data = Some (JNum z))
    (Hz : z == 0)
    (Halloc : ~ db_allocated_limit b == 0) :
  exists st' v bv,
    confirm_daily_limit st today data = Ok st'
    /\ dashboard st' today = Page v
    /\ dv_daily_budget v = Some bv
    /\ db_confirmed_limit (bv_budget bv) = Some z
    /\ bv_remaining bv = db_allocated_limit b - db_actual_spent b.
Proof.
  destruct (find_budget_some _ _ _ Hfind) as [Hin Hd].
  assert (budget_exists today (tbl_daily_budgets st) = true) as Hex
    by (apply budget_exists_in; exists b; auto).
  exists (with_daily_budgets st
            (map (set_confirmed_limit today (Some z)) (tbl_daily_budgets st))).
  unfold dashboard.
  rewrite (confirm_daily_limit_existing st today data z Hlimit Hex); simpl.
  rewrite find_budget_map by apply set_confirmed_limit_date.
  rewrite Hfind; simpl.
  unfold set_confirmed_limit; rewrite Hd, date_eqb_refl; simpl.
  assert (Qeq_bool z 0 = true) as Ez by (apply Qeq_bool_iff, Hz).
  rewrite Ez.
  destruct (Qeq_bool (db_allocated_limit b) 0) eqn:Ea;
    [apply Qeq_bool_iff in Ea; contradiction |].
  do 2 eexists; split; [reflexivity |]; split; [reflexivity |]; simpl.
  split; [reflexivity |]; split; reflexivity.
Qed.

Lemma zero_confirmation_falls_back_witness :
  let st := mk_store [] [] [] []
              [mk_daily_budget 1 (ymd 2024 6 5) 50 None 20] in
  exists st' v bv,
    confirm_daily_limit st (ymd 2024 6 5) [("limit"%string, JNum 0)] = Ok st'
    /\ dashboard st' (ymd 2024 6 5) = Page v
    /\ dv_daily_budget v = Some bv
    /\ db_confirmed_limit (bv_budget bv) = Some 0
    /\ bv_remaining bv = 50 - 20.
Proof.
  intros st.
  apply (zero_confirmation_falls_back st (ymd 2024 6 5) [("limit"%string, JNum 0)] 0
           (mk_daily_budget 1 (ymd 2024 6 5) 50 None 20));
    try reflexivity.
  discriminate.
Defined.

(** X18.  Whenever the dashboard shows today's budget, what remains is the
    limit in use minus the actual spending and the spent percentage is at
    most 100; with a positive limit and non-negative spending the
    percentage is not negative, and it is 100 exactly when nothing
    remains. *)
Theorem spent_percentage_range (st : store) (today : date) (v : dashboard_view)
    (bv : budget_view)
    (Hpage : dashboard st today = Page v)
    (Hshown : dv_daily_budget v = Some bv) :
  let b := bv_budget bv in
  let limit := limit_or (db_confirmed_limit b) (db_allocated_limit b) in
  find_budget today (tbl_daily_budgets st) = Some b
  /\ bv_remaining bv = limit - db_actual_spent b
  /\ bv_spent_percentage bv <= 100
  /\ (0 < limit -> 0 <= db_actual_spent b ->
      0 <= bv_spent_percentage bv
      /\ (bv_spent_percentage bv == 100 <-> bv_remaining bv <= 0)).
Proof.
  unfold dashboard in Hpage.
  destruct (find_budget today (tbl_daily_budgets st)) as [b0 |] eqn:Hfind;
    [| inversion Hpage; subst v; discriminate].
  destruct (Qeq_bool (limit_or (db_confirmed_limit b0) (db_allocated_limit b0)) 0);
    [discriminate |].
  inversion Hpage; subst v; clear Hpage.
  simpl in Hshown; inversion Hshown; subst bv; clear Hshown; simpl.
  set (limit := limit_or (db_confirmed_limit b0) (db_allocated_limit b0)).
  set (spent := db_actual_spent b0).
  split; [reflexivity |]. split; [reflexivity |].
  split.
  { unfold min100; destruct (Qle_bool 100 (spent / limit * 100)) eqn:E;
      [apply Qle_refl |].
    apply Qnot_lt_le; intros H; apply Qlt_le_weak, Qle_bool_iff in H; congruence. }
  intros Hlimit Hspent.
  assert (spent / limit * limit == spent) as Hr
    by (field; intros Hz; rewrite Hz in Hlimit; discriminate).
  assert (0 <= spent / limit) as Hr0 by (apply Qle_shift_div_l; [exact Hlimit | lra]).
  assert (1 <= spent / limit <-> limit <= spent) as Hone.
  { rewrite <- (Qmult_le_r 1 (spent / limit) limit Hlimit), Hr.
    split; intros H; lra. }
  unfold min100; destruct (Qle_bool 100 (spent / limit * 100)) eqn:E.
  - apply Qle_bool_iff in E.
    split; [discriminate |].
    split; [intros _ | reflexivity].
    assert (1 <= spent / limit) as H1 by lra.
    apply Hone in H1; lra.
  - assert (spent / limit * 100 < 100) as Hlt.
    { apply Qnot_le_lt; intros H; apply Qle_bool_iff in H; congruence. }
    split; [lra |].
    split; [intros H; lra |].
    intros Hrem; exfalso.
    assert (limit <= spent) as Hls by lra.
    apply Hone in Hls; lra.
Qed.

Lemma spent_percentage_range_witness :
  let st := mk_store [] [] [] []
              [mk_daily_budget 1 (ymd 2024 6 5) 50 (Some (40 # 1)) 60] in
  let b := mk_daily_budget 1 (ymd 2024 6 5) 50 (Some (40 # 1)) 60 in
  let bv := mk_budget_view b 100 (40 - 60) in
  dashboard st (ymd 2024 6 5) = Page (mk_dashboard_view (Some bv) None 0%Z 0)
  /\ bv_spent_percentage bv <= 100.
Proof.
  intros st b bv; split; [reflexivity |].
  apply (spent_percentage_range st (ymd 2024 6 5)
           (mk_dashboard_view (Some bv) None 0%Z 0) bv eq_refl eq_refl).
Defined.

(** X19.  After a confirmation of an amount other than 0 the dashboard of
    that day is rendered: it shows today's row with the confirmed amount
    as the limit in use, what remains is that amount minus the actual
    spending, and no suggestion is computed. *)
Theorem confirmed_limit_is_shown (st : store) (today : date) (data : json_object)
    (amount : Q)
    (Hlimit : dict_get "limit" data = Some (JNum amount))
    (Hnz : ~ amount == 0) :
  exists st' v bv,
    confirm_daily_limit st today data = Ok st'
    /\ dashboard st' today = Page v
    /\ dv_daily_budget v = Some bv
    /\ dv_suggested_limit v = 0
    /\ db_date (bv_budget bv) = today
    /\ db_confirmed_limit (bv_budget bv) = Some amount
    /\ bv_remaining bv = amount - db_actual_spent (bv_budget bv).
Proof.
  destruct (confirm_daily_limit_number st today data amount)
    as (st' & Hok & Hpost); [rewrite Hlimit; reflexivity |].
  destruct Hpost as (_ & _ & _ & _ & Hex & Hconf & _).
  destruct (find_budget_exists _ _ Hex) as [b Hfind].
  destruct (find_budget_some _ _ _ Hfind) as [Hin Hd].
  pose proof (Hconf b Hin Hd) as Hc.
  exists st'; unfold dashboard; rewrite Hfind.
  unfold limit_or; rewrite Hc.
  destruct (Qeq_bool amount 0) eqn:E; [apply Qeq_bool_iff in E; contradiction |].
  rewrite E.
  do 2 eexists; split; [exact Hok |]; split; [reflexivity |]; simpl.
  split; [reflexivity |]; split; [reflexivity |]; split; [exact Hd |].
  split; [exact Hc | reflexivity].
Qed.

Lemma confirmed_limit_is_shown_witness :
  dict_get "limit" [("limit"%string, JNum 40)] = Some (JNum 40)
  /\ ~ 40 == 0
  /\ exists st' v bv,
       confirm_daily_limit june_store (ymd 2024 6 5) [("limit"%string, JNum 40)] = Ok st'
       /\ dashboard st' (ymd 2024 6 5) = Page v
       /\ dv_daily_budget v = Some bv
       /\ dv_suggested_limit v = 0.
Proof.
  split; [reflexivity |]. split; [discriminate |].
  destruct (confirmed_limit_is_shown june_store (ymd 2024 6 5)
              [("limit"%string, JNum 40)] 40 eq_refl ltac:(discriminate))
    as (st' & v & bv & H1 & H2 & H3 & H4 & _).
  exists st', v, bv; auto.
Defined.

(** X20.  The progress the goal lists print never divides by a zero
    target: it is 0 for a target that is not positive; for a positive
    target it is not capped, reaches 100 exactly when the saved amount
    reaches the target, and a contribution raises it by the contribution's
    share of the target. *)
Theorem goal_progress_of_target (g : savings_goal) (amount : Q) :
  (sg_target_amount g <= 0 -> goal_progress g = 0)
  /\ (0 < sg_target_amount g ->
      (100 <= goal_progress g <-> sg_target_amount g <= sg_current_amount g)
      /\ goal_progress (add_to_goal (sg_id g) amount g)
         == goal_progress g + amount / sg_target_amount g * 100).
Proof.
  unfold goal_progress; split.
  - intros H; apply Qle_bool_iff in H; rewrite H; reflexivity.
  - intros Hpos.
    assert (Qle_bool (sg_target_amount g) 0 = false) as E.
    { destruct (Qle_bool (sg_target_amount g) 0) eqn:E; [| reflexivity].
      apply Qle_bool_iff in E; lra. }
    assert (~ sg_target_amount g == 0) as Hnz
      by (intros Hz; rewrite Hz in Hpos; discriminate).
    unfold add_to_goal; rewrite Z.eqb_refl; simpl; rewrite E.
    split; [| field; exact Hnz].
    assert (sg_current_amount g / sg_target_amount g * sg_target_amount g
            == sg_current_amount g) as Hr by (field; exact Hnz).
    assert (1 <= sg_current_amount g / sg_target_amount g
            <-> sg_target_amount g <= sg_current_amount g) as Hone.
    { rewrite <- (Qmult_le_r 1 (sg_current_amount g / sg_target_amount g)
                    (sg_target_amount g) Hpos), Hr.
      split; intros H; lra. }
    split; intros H.
    + apply Hone; lra.
    + apply Hone in H; lra.
Qed.

Lemma goal_progress_of_target_witness :
  let g := mk_savings_goal 2 "trip" 900 100 None 75 in
  0 < sg_target_amount g
  /\ goal_progress (add_to_goal (sg_id g) 800 g) == 100.
Proof.
  intros g; split; [reflexivity |].
  rewrite (proj2 (proj2 (goal_progress_of_target g 800) eq_refl)).
  reflexivity.
Defined.

End Dashboard.
